(** * Arize monitor for BentoML: schema classification, mapping inference,
      buffering and export

    A shallow embedding of
    [monitoring/bentoml-monitoring-arize/src/bentoml/monitoring/arize/__init__.py].

    Conventions of the embedding:
    - Python exceptions are values of [exn]; a computation is a function from
      a state to a result and the state reached, so that the mutations made
      before an exception is raised stay visible after it, as in Python.
    - [assert] statements are executed (the interpreter's default mode).
    - The module-level [logger] is a list of log records, oldest first; a
      record keeps the format string and its arguments apart, as
      [logging.LogRecord] does.
    - The collaborators outside the module (the wall clock, the tracing and
      component contexts of BentoML, the Arize client) are an explicit
      [Ambient] argument and a list of rows received by the client. *)

From Stdlib Require Import List String ZArith Bool Arith Lia.
From Stdlib Require Import PrimFloat SpecFloat FloatOps.
Import ListNotations.
Local Open Scope string_scope.
Local Open Scope list_scope.

Set Implicit Arguments.

(** ** Values, exceptions and log records *)

(** [DataType = Union[str, int, float, bool, List[float]]] *)
Inductive DataType : Type :=
| PyStr (s : string)
| PyInt (z : Z)
| PyFloat (f : float)
| PyBool (b : bool)
| PyList (l : list float).

(** The exceptions the module can raise or meet. *)
Inductive exn : Type :=
| ValueError (msg : string)
| AssertionError (msg : string)
| AttributeError (cls attr : string)
| IndexError (msg : string)
| KeyError (key : string)
| OverflowError (msg : string).

Inductive Res (A : Type) : Type :=
| Ok (a : A)
| Err (e : exn).
Arguments Ok {A} a.
Arguments Err {A} e.

Definition is_IndexError (e : exn) : bool :=
  match e with IndexError _ => true | _ => false end.

(** An argument of a logging call: a string or a list of column names. *)
Inductive LogArg : Type :=
| ArgStr (s : string)
| ArgList (l : list string).

Record LogRecord : Type := mkLogRecord {
  log_msg : string;
  log_args : list LogArg
}.

Definition Logger : Type := list LogRecord.

(** ** Computations with state and exceptions *)

Module Py.
Section Monad.
Context {S : Type}.

Definition t (A : Type) : Type := S -> Res A * S.

Definition ret {A} (a : A) : t A := fun s => (Ok a, s).

Definition bind {A B} (c : t A) (k : A -> t B) : t B :=
  fun s => match c s with
           | (Ok a, s') => k a s'
           | (Err e, s') => (Err e, s')
           end.

Definition raise {A} (e : exn) : t A := fun s => (Err e, s).

Definition modify (f : S -> S) : t unit := fun s => (Ok tt, f s).

(** [assert cond, msg] *)
Definition assert (cond : bool) (msg : string) : t unit :=
  if cond then ret tt else raise (AssertionError msg).

(** A value that was computed without touching the state. *)
Definition lift_res {A} (r : Res A) : t A := fun s => (r, s).

End Monad.
Arguments t : clear implicits.
End Py.

Declare Scope py_scope.
Delimit Scope py_scope with py.
Notation "x <- c ;; k" := (Py.bind c (fun x => k))
  (at level 61, c at next level, right associativity) : py_scope.
Notation "c ;;; k" := (Py.bind c (fun _ => k))
  (at level 61, right associativity) : py_scope.
Local Open Scope py_scope.

(** [logger.warning(msg, *args)] *)
Definition warning (msg : string) (args : list LogArg) : Py.t Logger unit :=
  Py.modify (fun l => l ++ [mkLogRecord msg args]).

(** Pure results: no state at all. *)
Definition res_bind {A B} (r : Res A) (k : A -> Res B) : Res B :=
  match r with Ok a => k a | Err e => Err e end.

(** ** Module constants *)

Definition BENTOML_MONITOR_ROLES : list string :=
  ["feature"; "prediction"; "target"].
Definition BENTOML_MONITOR_TYPES : list string :=
  ["numerical"; "categorical"; "numerical_sequence"].

Definition str_in (s : string) (l : list string) : bool :=
  existsb (String.eqb s) l.

(** [class Mapping(Enum)] *)
Inductive Mapping : Type :=
| SCORED_CLASSIFICATION
| CLASSIFICATION
| REGRESSION
| RANKING.

(** [arize.utils.types.ModelTypes]: the two members the module names, and
    any other member of the external enumeration. *)
Inductive ModelTypes : Type :=
| NUMERIC
| SCORE_CATEGORICAL
| OTHER_MODEL_TYPE (member : string).

Definition ModelTypes_eqb (a b : ModelTypes) : bool :=
  match a, b with
  | NUMERIC, NUMERIC => true
  | SCORE_CATEGORICAL, SCORE_CATEGORICAL => true
  | OTHER_MODEL_TYPE x, OTHER_MODEL_TYPE y => String.eqb x y
  | _, _ => false
  end.

(** [arize.utils.types.Environments] *)
Inductive Environments : Type :=
| PRODUCTION
| OTHER_ENVIRONMENT (member : string).

(** ** The schema and its classification *)

(** A schema entry: [{"name": ..., "role": ..., "type": ...}]. *)
Record Column : Type := mkColumn {
  column_name : string;
  column_role : string;
  column_type : string
}.

(** [class _FieldStats]: six lists of column names, each empty at creation. *)
Record _FieldStats : Type := mk_FieldStats {
  prediction_label_columns : list string;
  prediction_score_columns : list string;
  actual_label_columns : list string;
  actual_score_columns : list string;
  feature_columns : list string;
  embedding_feature_columns : list string
}.

Definition new_FieldStats : _FieldStats := mk_FieldStats [] [] [] [] [] [].

(** Attribute lookup on a [_FieldStats] instance: the class declares the six
    attributes above and no other. *)
Definition _FieldStats_getattr (fields : _FieldStats) (attr : string)
  : Res (list string) :=
  if attr =? "prediction_label_columns" then Ok (prediction_label_columns fields)
  else if attr =? "prediction_score_columns" then Ok (prediction_score_columns fields)
  else if attr =? "actual_label_columns" then Ok (actual_label_columns fields)
  else if attr =? "actual_score_columns" then Ok (actual_score_columns fields)
  else if attr =? "feature_columns" then Ok (feature_columns fields)
  else if attr =? "embedding_feature_columns" then Ok (embedding_feature_columns fields)
  else Err (AttributeError "_FieldStats" attr).

(** [fields.<bucket>.append(name)] *)
Definition append_embedding_feature (n : string) (f : _FieldStats) : _FieldStats :=
  mk_FieldStats (prediction_label_columns f) (prediction_score_columns f)
    (actual_label_columns f) (actual_score_columns f)
    (feature_columns f) (embedding_feature_columns f ++ [n]).
Definition append_feature (n : string) (f : _FieldStats) : _FieldStats :=
  mk_FieldStats (prediction_label_columns f) (prediction_score_columns f)
    (actual_label_columns f) (actual_score_columns f)
    (feature_columns f ++ [n]) (embedding_feature_columns f).
Definition append_prediction_label (n : string) (f : _FieldStats) : _FieldStats :=
  mk_FieldStats (prediction_label_columns f ++ [n]) (prediction_score_columns f)
    (actual_label_columns f) (actual_score_columns f)
    (feature_columns f) (embedding_feature_columns f).
Definition append_prediction_score (n : string) (f : _FieldStats) : _FieldStats :=
  mk_FieldStats (prediction_label_columns f) (prediction_score_columns f ++ [n])
    (actual_label_columns f) (actual_score_columns f)
    (feature_columns f) (embedding_feature_columns f).
Definition append_actual_label (n : string) (f : _FieldStats) : _FieldStats :=
  mk_FieldStats (prediction_label_columns f) (prediction_score_columns f)
    (actual_label_columns f ++ [n]) (actual_score_columns f)
    (feature_columns f) (embedding_feature_columns f).
Definition append_actual_score (n : string) (f : _FieldStats) : _FieldStats :=
  mk_FieldStats (prediction_label_columns f) (prediction_score_columns f)
    (actual_label_columns f) (actual_score_columns f ++ [n])
    (feature_columns f) (embedding_feature_columns f).

(** The body of the loop of [_stat_fields], for one column. *)
Definition stat_column (fields : _FieldStats) (column : Column)
  : Py.t Logger _FieldStats :=
  let n := column_name column in
  let r := column_role column in
  let ty := column_type column in
  if r =? "feature" then
    if ty =? "numerical_sequence"
    then Py.ret (append_embedding_feature n fields)
    else Py.ret (append_feature n fields)
  else if (ty =? "categorical") && (r =? "prediction") then
    Py.ret (append_prediction_label n fields)
  else if (ty =? "numerical") && (r =? "prediction") then
    Py.ret (append_prediction_score n fields)
  else if (ty =? "numerical_sequence") && (r =? "prediction") then
    warning "Arize Monitor does not support numerical_sequence for prediction. Ignoring column %s"
            [ArgStr n] ;;;
    Py.ret fields
  else if (ty =? "categorical") && (r =? "target") then
    Py.ret (append_actual_label n fields)
  else if (ty =? "numerical") && (r =? "target") then
    Py.ret (append_actual_score n fields)
  else if (ty =? "numerical_sequence") && (r =? "target") then
    warning "Arize Monitor does not support numerical_sequence for target. Ignoring column %s"
            [ArgStr n] ;;;
    Py.ret fields
  else
    warning "Arize Monitor does not support column %s with role %s and type %s.Ignoring column"
            [ArgStr n; ArgStr r; ArgStr ty] ;;;
    Py.ret fields.

Fixpoint stat_columns (schema : list Column) (fields : _FieldStats)
  : Py.t Logger _FieldStats :=
  match schema with
  | [] => Py.ret fields
  | column :: rest =>
      fields' <- stat_column fields column ;;
      stat_columns rest fields'
  end.

(** [def _stat_fields(schema)] *)
Definition _stat_fields (schema : list Column) : Py.t Logger _FieldStats :=
  stat_columns schema new_FieldStats.

(** ** Mapping inference *)

(** Truth value of a list: non-empty. *)
Definition truthy {A} (l : list A) : bool :=
  match l with [] => false | _ :: _ => true end.

(** [if warn and len(columns) > 1: logger.warning(msg, columns[1:])] *)
Definition warn_extra (warn : bool) (columns : list string) (msg : string)
  : Py.t Logger unit :=
  if warn && (1 <? List.length columns)%nat
  then warning msg [ArgList (tl columns)]
  else Py.ret tt.

Definition msg_single_prediction_label : string :=
  "Arize only supports single prediction label column, column %s will be ignore".
Definition msg_single_prediction_score : string :=
  "Arize only supports single prediction score column, column %s will be ignore".
Definition msg_single_actual_label : string :=
  "Arize only supports single actual label column, column %s will be ignore".
Definition msg_single_actual_score : string :=
  "Arize only supports single actual score column, column %s will be ignore".

(** [def _is_valid_classification_form(fields, warn=False)] *)
Definition _is_valid_classification_form (fields : _FieldStats) (warn : bool)
  : Py.t Logger bool :=
  if truthy (prediction_label_columns fields)
     && negb (truthy (prediction_score_columns fields)) then
    warn_extra warn (prediction_label_columns fields) msg_single_prediction_label ;;;
    Py.ret true
  else if truthy (actual_label_columns fields)
          && negb (truthy (actual_score_columns fields)) then
    warn_extra warn (actual_label_columns fields) msg_single_actual_label ;;;
    Py.ret true
  else Py.ret false.

(** [def _is_valid_scored_classification_form(fields, warn=False)] *)
Definition _is_valid_scored_classification_form (fields : _FieldStats) (warn : bool)
  : Py.t Logger bool :=
  if truthy (prediction_label_columns fields)
     && truthy (prediction_score_columns fields) then
    warn_extra warn (prediction_label_columns fields) msg_single_prediction_label ;;;
    warn_extra warn (prediction_score_columns fields) msg_single_prediction_score ;;;
    Py.ret true
  else if truthy (actual_label_columns fields)
          && truthy (actual_score_columns fields) then
    warn_extra warn (actual_label_columns fields) msg_single_actual_label ;;;
    warn_extra warn (actual_score_columns fields) msg_single_actual_score ;;;
    Py.ret true
  else Py.ret false.

(** [def _is_valid_regression_form(fields, warn=False)]; its first statement
    is [assert fields.is_filled]. *)
Definition _is_valid_regression_form (fields : _FieldStats) (warn : bool)
  : Py.t Logger bool :=
  is_filled <- Py.lift_res (_FieldStats_getattr fields "is_filled") ;;
  Py.assert (truthy is_filled) "" ;;;
  if truthy (prediction_score_columns fields)
     && negb (truthy (prediction_label_columns fields)) then
    warn_extra warn (prediction_score_columns fields) msg_single_prediction_score ;;;
    Py.ret true
  else if truthy (actual_score_columns fields)
          && negb (truthy (actual_label_columns fields)) then
    warn_extra warn (actual_score_columns fields) msg_single_actual_score ;;;
    Py.ret true
  else Py.ret false.

Definition msg_no_valid_mapping : string :=
  "failed to find a valid mapping to arize schema for the given schema. Please specify a mapping using the `model_type` parameter.".
Definition msg_unsupported_model_type : string :=
  "Arize Monitor does not support model type %s. Falling back to default mapping".

(** [def _infer_mapping(fields, model_type=None)] *)
Definition _infer_mapping (fields : _FieldStats) (model_type : option ModelTypes)
  : Py.t Logger Mapping :=
  match model_type with
  | None =>
      scored <- _is_valid_scored_classification_form fields false ;;
      if scored then Py.ret SCORED_CLASSIFICATION else
      plain <- _is_valid_classification_form fields false ;;
      if plain then Py.ret CLASSIFICATION else
      regr <- _is_valid_regression_form fields false ;;
      if regr then Py.ret REGRESSION else
      Py.raise (ValueError msg_no_valid_mapping)
  | Some mt =>
      if ModelTypes_eqb mt SCORE_CATEGORICAL then
        scored <- _is_valid_scored_classification_form fields true ;;
        if scored then Py.ret SCORED_CLASSIFICATION else
        plain <- _is_valid_classification_form fields true ;;
        if plain then Py.ret CLASSIFICATION else
        Py.raise (ValueError "Not a valid arize classification schema")
      else if ModelTypes_eqb mt NUMERIC then
        regr <- _is_valid_regression_form fields true ;;
        if regr then Py.ret REGRESSION else
        Py.raise (ValueError "Not a valid arize regression schema")
      else
        warning msg_unsupported_model_type [] ;;;
        Py.ret REGRESSION
  end.

(** [_mapping_to_model_type[mapping]] *)
Definition _mapping_to_model_type (mapping : Mapping) : Res ModelTypes :=
  match mapping with
  | SCORED_CLASSIFICATION => Ok SCORE_CATEGORICAL
  | CLASSIFICATION => Ok SCORE_CATEGORICAL
  | REGRESSION => Ok NUMERIC
  | RANKING => Err (KeyError "Mapping.RANKING")
  end.

(** ** Conversion of one record *)

(** A Python [dict] with string keys, in insertion order. *)
Definition dict (V : Type) : Type := list (string * V).

Fixpoint dict_get {V} (d : dict V) (k : string) : option V :=
  match d with
  | [] => None
  | (k', v) :: rest => if k' =? k then Some v else dict_get rest k
  end.

(** [d[k] = v]: an existing key keeps its place, a new one goes last. *)
Fixpoint dict_set {V} (d : dict V) (k : string) (v : V) : dict V :=
  match d with
  | [] => [(k, v)]
  | (k', v') :: rest =>
      if k' =? k then (k', v) :: rest else (k', v') :: dict_set rest k v
  end.

(** [d[k]], raising [KeyError] *)
Definition dict_item {V} (d : dict V) (k : string) : Res V :=
  match dict_get d k with
  | Some v => Ok v
  | None => Err (KeyError k)
  end.

(** [l[0]], raising [IndexError] *)
Definition list_first {A} (l : list A) : Res A :=
  match l with
  | x :: _ => Ok x
  | [] => Err (IndexError "list index out of range")
  end.

(** A prediction or actual label sent to Arize: a value, or a pair of a
    label and its score. *)
Inductive Label : Type :=
| Scalar (v : DataType)
| Scored (label score : DataType).

(** [arize.utils.types.Embedding(vector=...)] *)
Record Embedding : Type := mkEmbedding { vector : DataType }.

(** The tuple returned by [_map_data]. *)
Record DataInfos : Type := mkDataInfos {
  info_prediction_label : Label;
  info_actual_label : Label;
  info_features : dict DataType;
  info_embedding_features : dict Embedding
}.

(** [{c: f(record[c]) for c in columns}] *)
Fixpoint dict_comprehension {V} (f : DataType -> V) (record : dict DataType)
    (columns : list string) (acc : dict V) : Res (dict V) :=
  match columns with
  | [] => Ok acc
  | c :: rest =>
      res_bind (dict_item record c) (fun v =>
      dict_comprehension f record rest (dict_set acc c (f v)))
  end.

Notation "x <-- r ;; k" := (res_bind r (fun x => k))
  (at level 61, r at next level, right associativity) : py_scope.

(** [record[columns[0]]] *)
Definition first_item (record : dict DataType) (columns : list string)
  : Res DataType :=
  c <-- list_first columns ;; dict_item record c.

(** The labels computed by [_map_data], per mapping; the last branch is
    preceded by a warning in the source. *)
Definition map_labels (record : dict DataType) (fields : _FieldStats)
    (mapping : Mapping) : Res (Label * Label) :=
  match mapping with
  | SCORED_CLASSIFICATION =>
      pl <-- first_item record (prediction_label_columns fields) ;;
      ps <-- first_item record (prediction_score_columns fields) ;;
      al <-- first_item record (actual_label_columns fields) ;;
      asc <-- first_item record (actual_score_columns fields) ;;
      Ok (Scored pl ps, Scored al asc)
  | CLASSIFICATION =>
      pl <-- first_item record (prediction_label_columns fields) ;;
      al <-- first_item record (actual_label_columns fields) ;;
      Ok (Scalar pl, Scalar al)
  | REGRESSION =>
      p <-- first_item record
              (prediction_score_columns fields ++ prediction_label_columns fields) ;;
      a <-- first_item record
              (actual_score_columns fields ++ actual_label_columns fields) ;;
      Ok (Scalar p, Scalar a)
  | RANKING =>
      p <-- first_item record (prediction_score_columns fields) ;;
      a <-- first_item record (actual_score_columns fields) ;;
      Ok (Scalar p, Scalar a)
  end.

(** [def _map_data(record, fields, mapping)] *)
Definition _map_data (record : dict DataType) (fields : _FieldStats)
    (mapping : Mapping) : Py.t Logger DataInfos :=
  (match mapping with
   | RANKING => warning "Mapping not supported. Fallback to regression" []
   | _ => Py.ret tt
   end) ;;;
  labels <- Py.lift_res (map_labels record fields mapping) ;;
  features <- Py.lift_res
    (dict_comprehension (fun v => v) record (feature_columns fields) []) ;;
  embedding_features <- Py.lift_res
    (dict_comprehension mkEmbedding record (embedding_feature_columns fields) []) ;;
  Py.ret (mkDataInfos (fst labels) (snd labels) features embedding_features).

(** ** The monitor *)

(** What the monitor reads from outside the module during one call. *)
Record Ambient : Type := mkAmbient {
  now_timestamp : float;           (* datetime.datetime.now().timestamp() *)
  trace_request_id : option Z;     (* trace_context.request_id *)
  bento_name : option string;      (* component_context.bento_name *)
  bento_version : option string    (* component_context.bento_version *)
}.

(** The keyword arguments of one call of [Client.log]. *)
Record ArizeRow : Type := mkArizeRow {
  row_model_id : string;
  row_model_type : ModelTypes;
  row_environment : Environments;
  row_model_version : option string;
  row_tags : option (dict DataType);
  row_prediction_id : DataType;
  row_prediction_timestamp : Z;
  row_batch_id : option string;
  row_prediction_label : Label;
  row_actual_label : Label;
  row_features : dict DataType;
  row_embedding_features : dict Embedding
}.

(** The instance attributes of [ArizeMonitor] that its methods read or write
    after construction. [_data_converter] and [_client] do not exist until
    [export_schema] sets them; [_client] is the list of rows the client has
    received, oldest first. *)
Record ArizeMonitor : Type := mkArizeMonitor {
  model_type : option ModelTypes;
  model_id : option string;
  model_version : option string;
  environment : option Environments;
  model_tags : option (dict DataType);
  _is_recording : bool;
  _is_first_record : bool;
  _is_first_column : bool;
  _schema : list Column;
  _arize_schema : list Column;
  _columns : dict (list DataType);
  _data_converter : option (_FieldStats * Mapping);
  _client : option (list ArizeRow)
}.

(** [ArizeMonitor.__init__], after the client options are stored. *)
Definition new_ArizeMonitor (model_type : option ModelTypes)
    (model_id model_version : option string)
    (environment : option Environments)
    (model_tags : option (dict DataType)) : ArizeMonitor :=
  mkArizeMonitor model_type model_id model_version environment model_tags
    false true false [] [] [] None None.

Definition set_model_type (v : option ModelTypes) (m : ArizeMonitor) :=
  mkArizeMonitor v (model_id m) (model_version m) (environment m) (model_tags m)
    (_is_recording m) (_is_first_record m) (_is_first_column m) (_schema m)
    (_arize_schema m) (_columns m) (_data_converter m) (_client m).
Definition set_model_id (v : option string) (m : ArizeMonitor) :=
  mkArizeMonitor (model_type m) v (model_version m) (environment m) (model_tags m)
    (_is_recording m) (_is_first_record m) (_is_first_column m) (_schema m)
    (_arize_schema m) (_columns m) (_data_converter m) (_client m).
Definition set_model_version (v : option string) (m : ArizeMonitor) :=
  mkArizeMonitor (model_type m) (model_id m) v (environment m) (model_tags m)
    (_is_recording m) (_is_first_record m) (_is_first_column m) (_schema m)
    (_arize_schema m) (_columns m) (_data_converter m) (_client m).
Definition set_environment (v : option Environments) (m : ArizeMonitor) :=
  mkArizeMonitor (model_type m) (model_id m) (model_version m) v (model_tags m)
    (_is_recording m) (_is_first_record m) (_is_first_column m) (_schema m)
    (_arize_schema m) (_columns m) (_data_converter m) (_client m).
Definition set_is_first_record (v : bool) (m : ArizeMonitor) :=
  mkArizeMonitor (model_type m) (model_id m) (model_version m) (environment m)
    (model_tags m) (_is_recording m) v (_is_first_column m) (_schema m)
    (_arize_schema m) (_columns m) (_data_converter m) (_client m).
Definition set_is_first_column (v : bool) (m : ArizeMonitor) :=
  mkArizeMonitor (model_type m) (model_id m) (model_version m) (environment m)
    (model_tags m) (_is_recording m) (_is_first_record m) v (_schema m)
    (_arize_schema m) (_columns m) (_data_converter m) (_client m).
Definition set_schema (v : list Column) (m : ArizeMonitor) :=
  mkArizeMonitor (model_type m) (model_id m) (model_version m) (environment m)
    (model_tags m) (_is_recording m) (_is_first_record m) (_is_first_column m) v
    (_arize_schema m) (_columns m) (_data_converter m) (_client m).
Definition set_columns (v : dict (list DataType)) (m : ArizeMonitor) :=
  mkArizeMonitor (model_type m) (model_id m) (model_version m) (environment m)
    (model_tags m) (_is_recording m) (_is_first_record m) (_is_first_column m)
    (_schema m) (_arize_schema m) v (_data_converter m) (_client m).
Definition set_data_converter (v : option (_FieldStats * Mapping)) (m : ArizeMonitor) :=
  mkArizeMonitor (model_type m) (model_id m) (model_version m) (environment m)
    (model_tags m) (_is_recording m) (_is_first_record m) (_is_first_column m)
    (_schema m) (_arize_schema m) (_columns m) v (_client m).
Definition set_client (v : option (list ArizeRow)) (m : ArizeMonitor) :=
  mkArizeMonitor (model_type m) (model_id m) (model_version m) (environment m)
    (model_tags m) (_is_recording m) (_is_first_record m) (_is_first_column m)
    (_schema m) (_arize_schema m) (_columns m) (_data_converter m) v.

(** The state a method runs in: the instance and the module's logger. *)
Record World : Type := mkWorld {
  self : ArizeMonitor;
  logger : Logger
}.

Definition get_self : Py.t World ArizeMonitor :=
  fun w => (Ok (self w), w).
Definition update_self (f : ArizeMonitor -> ArizeMonitor) : Py.t World unit :=
  fun w => (Ok tt, mkWorld (f (self w)) (logger w)).

(** A module-level function called from a method: it sees the logger only. *)
Definition with_logger {A} (c : Py.t Logger A) : Py.t World A :=
  fun w => let (r, l) := c (logger w) in (r, mkWorld (self w) l).

Definition COLUMN_TIME : string := "timestamp".
Definition COLUMN_RID : string := "request_id".
Definition PRESERVED_COLUMNS : list string := [COLUMN_TIME; COLUMN_RID].

(** [self._columns[name].append(data)]; [_columns] is a [defaultdict(deque)],
    so a missing name is first bound to an empty deque. *)
Fixpoint columns_append (columns : dict (list DataType)) (name : string)
    (data : DataType) : dict (list DataType) :=
  match columns with
  | [] => [(name, [data])]
  | (k, q) :: rest =>
      if k =? name then (k, q ++ [data]) :: rest
      else (k, q) :: columns_append rest name data
  end.

Definition append_to_column (name : string) (data : DataType) : Py.t World unit :=
  update_self (fun m => set_columns (columns_append (_columns m) name data) m).

(** [def start_record(self)] *)
Definition start_record : Py.t World unit :=
  update_self (set_is_first_column true).

(** [def log(self, data, name, role, data_type)] *)
Definition log (ctx : Ambient) (data : DataType) (name role data_type : string)
  : Py.t World unit :=
  (if str_in name PRESERVED_COLUMNS
   then Py.raise (ValueError
          ("Column name " ++ name ++ " is preserved. Please use a different name."))
   else Py.ret tt) ;;;
  Py.assert (str_in role BENTOML_MONITOR_ROLES) ("Invalid role " ++ role) ;;;
  Py.assert (str_in data_type BENTOML_MONITOR_TYPES)
            ("Invalid data type " ++ data_type) ;;;
  m <- get_self ;;
  (if _is_first_record m
   then update_self (fun m => set_schema (_schema m ++ [mkColumn name role data_type]) m)
   else Py.ret tt) ;;;
  m <- get_self ;;
  (if _is_first_column m then
     update_self (set_is_first_column false) ;;;
     append_to_column COLUMN_TIME (PyFloat (now_timestamp ctx)) ;;;
     match trace_request_id ctx with
     | None => Py.raise (AssertionError "")
     | Some rid => append_to_column COLUMN_RID (PyInt rid)
     end
   else Py.ret tt) ;;;
  append_to_column name data.

(** [def log_batch(self, data_batch, name, role, data_type)], for a batch
    that can be iterated. *)
Fixpoint log_batch (ctx : Ambient) (data_batch : list DataType)
    (name role data_type : string) : Py.t World unit :=
  match data_batch with
  | [] => Py.ret tt
  | data :: rest =>
      log ctx data name role data_type ;;;
      log_batch ctx rest name role data_type
  end.

(** [def export_schema(self)] *)
Definition export_schema (ctx : Ambient) : Py.t World unit :=
  m <- get_self ;;
  fields <- with_logger (_stat_fields (_schema m)) ;;
  mapping <- with_logger (_infer_mapping fields (model_type m)) ;;
  update_self (set_data_converter (Some (fields, mapping))) ;;;
  (match model_type m with
   | None =>
       mt <- Py.lift_res (_mapping_to_model_type mapping) ;;
       update_self (set_model_type (Some mt))
   | Some _ => Py.ret tt
   end) ;;;
  (match model_version m, model_id m with
   | None, None =>
       update_self (set_model_id (bento_name ctx)) ;;;
       update_self (set_model_version (bento_version ctx))
   | _, _ => Py.ret tt
   end) ;;;
  (match environment m with
   | None => update_self (set_environment (Some PRODUCTION))
   | Some _ => Py.ret tt
   end) ;;;
  update_self (set_client (Some [])).

(** [int(x)] for a float [x]: truncation towards zero. *)
Definition int_of_float (x : float) : Res Z :=
  match Prim2SF x with
  | S754_zero _ => Ok 0%Z
  | S754_infinity _ =>
      Err (OverflowError "cannot convert float infinity to integer")
  | S754_nan => Err (ValueError "cannot convert float NaN to integer")
  | S754_finite s m e =>
      let magnitude :=
        if (0 <=? e)%Z then (Z.pos m * 2 ^ e)%Z
        else (Z.pos m / 2 ^ (- e))%Z in
      Ok (if s then (- magnitude)%Z else magnitude)
  end.

(** [isinstance(v, float)] *)
Definition is_float (v : DataType) : bool :=
  match v with PyFloat _ => true | _ => false end.

(** [isinstance(v, int)]; [bool] is a subclass of [int]. *)
Definition is_int (v : DataType) : bool :=
  match v with PyInt _ | PyBool _ => true | _ => false end.

(** [set(len(q) for q in self._columns.values())] *)
Definition queue_lengths (columns : dict (list DataType)) : list nat :=
  nodup Nat.eq_dec (map (fun kv => List.length (snd kv)) columns).

(** [{k: v.popleft() for k, v in self._columns.items()}]: the queues are
    popped in the order of the dictionary; the first empty one raises
    [IndexError], and the queues before it stay popped. *)
Fixpoint pop_columns (columns : dict (list DataType))
  : Res (dict DataType) * dict (list DataType) :=
  match columns with
  | [] => (Ok [], [])
  | (k, q) :: rest =>
      match q with
      | [] => (Err (IndexError "pop from an empty deque"), columns)
      | v :: q' =>
          let (r, rest') := pop_columns rest in
          (match r with
           | Ok record => Ok ((k, v) :: record)
           | Err e => Err e
           end, (k, q') :: rest')
      end
  end.

Definition popleft_all : Py.t World (dict DataType) :=
  fun w =>
    let (r, columns') := pop_columns (_columns (self w)) in
    (r, mkWorld (set_columns columns' (self w)) (logger w)).

(** An instance attribute that may not have been set yet. *)
Definition getattr {A} (v : option A) (attr : string) : Py.t World A :=
  match v with
  | Some a => Py.ret a
  | None => Py.raise (AttributeError "ArizeMonitor" attr)
  end.

(** [self._client.log(...)] on the client [rows]. *)
Definition client_log (rows : list ArizeRow) (row : ArizeRow) : Py.t World unit :=
  update_self (set_client (Some (rows ++ [row]))).

(** The body of the [try] in the loop of [export_data]: one row. The three
    model options were asserted to be set before the loop. *)
Definition export_row (mid : string) (mty : ModelTypes) (env : Environments)
  : Py.t World unit :=
  record <- popleft_all ;;
  timestamp <- Py.lift_res (dict_item record COLUMN_TIME) ;;
  Py.assert (is_float timestamp) "" ;;;
  prediction_id <- Py.lift_res (dict_item record COLUMN_RID) ;;
  Py.assert (is_int prediction_id) "" ;;;
  m <- get_self ;;
  converter <- getattr (_data_converter m) "_data_converter" ;;
  data_infos <- with_logger (_map_data record (fst converter) (snd converter)) ;;
  rows <- getattr (_client m) "_client" ;;
  prediction_timestamp <-
    Py.lift_res (match timestamp with
                 | PyFloat x => int_of_float x
                 | _ => Err (AssertionError "")
                 end) ;;
  client_log rows
    (mkArizeRow mid mty env (model_version m) (model_tags m)
       prediction_id prediction_timestamp None
       (info_prediction_label data_infos) (info_actual_label data_infos)
       (info_features data_infos) (info_embedding_features data_infos)).

(** [while True: try: <one row> except IndexError: break], with a bound on
    the number of iterations; [None] when the bound is reached. *)
Fixpoint export_loop (fuel : nat) (mid : string) (mty : ModelTypes)
    (env : Environments) (w : World) : option (Res unit * World) :=
  match fuel with
  | O => None
  | S fuel' =>
      match export_row mid mty env w with
      | (Ok _, w') => export_loop fuel' mid mty env w'
      | (Err e, w') =>
          if is_IndexError e then Some (Ok tt, w') else Some (Err e, w')
      end
  end.

(** The number of values held in all the queues. *)
Definition buffered (columns : dict (list DataType)) : nat :=
  list_sum (map (fun kv => List.length (snd kv)) columns).

(** [def export_data(self)]. The loop is run with one more iteration than
    there are buffered values, which is always enough
    ([export_loop_terminates]). *)
Definition export_data : Py.t World unit :=
  m <- get_self ;;
  Py.assert (List.length (queue_lengths (_columns m)) =? 1)%nat
            "All columns must have the same length" ;;;
  mid <- match model_id m with
         | Some x => Py.ret x | None => Py.raise (AssertionError "") end ;;
  mty <- match model_type m with
         | Some x => Py.ret x | None => Py.raise (AssertionError "") end ;;
  env <- match environment m with
         | Some x => Py.ret x | None => Py.raise (AssertionError "") end ;;
  fun w =>
    match export_loop (S (buffered (_columns (self w)))) mid mty env w with
    | Some r => r
    | None => (Ok tt, w)
    end.

Definition msg_no_data : string :=
  "No data logged in this record. Will skip this record.".

(** [def stop_record(self)] *)
Definition stop_record (ctx : Ambient) : Py.t World unit :=
  m <- get_self ;;
  (if _is_first_record m
   then export_schema ctx ;;; update_self (set_is_first_record false)
   else Py.ret tt) ;;;
  m <- get_self ;;
  if _is_first_column m
  then with_logger (warning msg_no_data [])
  else export_data.

(** * Properties *)

(** ** Classification of the schema *)

(** The routing table of the specification, read as a function of the role
    and the type of a column. *)
Inductive Bucket : Type :=
| EmbeddingFeature
| Feature
| PredictionLabel
| PredictionScore
| ActualLabel
| ActualScore
| Dropped.

Definition Bucket_eqb (a b : Bucket) : bool :=
  match a, b with
  | EmbeddingFeature, EmbeddingFeature
  | Feature, Feature
  | PredictionLabel, PredictionLabel
  | PredictionScore, PredictionScore
  | ActualLabel, ActualLabel
  | ActualScore, ActualScore
  | Dropped, Dropped => true
  | _, _ => false
  end.

Definition route_spec (role type : string) : Bucket :=
  if role =? "feature" then
    if type =? "numerical_sequence" then EmbeddingFeature else Feature
  else if role =? "prediction" then
    if type =? "categorical" then PredictionLabel
    else if type =? "numerical" then PredictionScore
    else Dropped
  else if role =? "target" then
    if type =? "categorical" then ActualLabel
    else if type =? "numerical" then ActualScore
    else Dropped
  else Dropped.

Definition route_column (c : Column) : Bucket :=
  route_spec (column_role c) (column_type c).

(** The names of the columns routed to a bucket, in declaration order. *)
Definition bucket_spec (b : Bucket) (schema : list Column) : list string :=
  map column_name (filter (fun c => Bucket_eqb (route_column c) b) schema).

Definition classify_spec (schema : list Column) : _FieldStats :=
  mk_FieldStats
    (bucket_spec PredictionLabel schema) (bucket_spec PredictionScore schema)
    (bucket_spec ActualLabel schema) (bucket_spec ActualScore schema)
    (bucket_spec Feature schema) (bucket_spec EmbeddingFeature schema).

(** Bucket-wise concatenation. *)
Definition fields_app (f g : _FieldStats) : _FieldStats :=
  mk_FieldStats
    (prediction_label_columns f ++ prediction_label_columns g)
    (prediction_score_columns f ++ prediction_score_columns g)
    (actual_label_columns f ++ actual_label_columns g)
    (actual_score_columns f ++ actual_score_columns g)
    (feature_columns f ++ feature_columns g)
    (embedding_feature_columns f ++ embedding_feature_columns g).

(** The exception raised by the three checks that open [log]. *)
Definition log_argument_error (name role data_type : string) : exn :=
  if str_in name PRESERVED_COLUMNS then
    ValueError ("Column name " ++ name ++ " is preserved. Please use a different name.")
  else if negb (str_in role BENTOML_MONITOR_ROLES) then
    AssertionError ("Invalid role " ++ role)
  else AssertionError ("Invalid data type " ++ data_type).

(** The rows the client has received so far. *)
Definition rows_sent (m : ArizeMonitor) : list ArizeRow :=
  match _client m with
  | Some rows => rows
  | None => []
  end.

(** ** The rows of the buffered records *)

(** The value of [_map_data] when it returns or raises, its warning apart. *)
Definition map_data_res (record : dict DataType) (fields : _FieldStats)
    (mapping : Mapping) : Res DataInfos :=
  labels <-- map_labels record fields mapping ;;
  features <--
    dict_comprehension (fun v => v) record (feature_columns fields) [] ;;
  embedding_features <--
    dict_comprehension mkEmbedding record (embedding_feature_columns fields) [] ;;
  Ok (mkDataInfos (fst labels) (snd labels) features embedding_features).

(** The row that one iteration of the loop of [export_data] sends for the
    record it has popped, or the exception it raises. *)
Definition record_row (mid : string) (mty : ModelTypes) (env : Environments)
    (version : option string) (tags : option (dict DataType))
    (fields : _FieldStats) (mapping : Mapping) (record : dict DataType)
  : Res ArizeRow :=
  timestamp <-- dict_item record COLUMN_TIME ;;
  match timestamp with
  | PyFloat x =>
      prediction_id <-- dict_item record COLUMN_RID ;;
      if is_int prediction_id then
        data_infos <-- map_data_res record fields mapping ;;
        prediction_timestamp <-- int_of_float x ;;
        Ok (mkArizeRow mid mty env version tags
              prediction_id prediction_timestamp None
              (info_prediction_label data_infos) (info_actual_label data_infos)
              (info_features data_infos) (info_embedding_features data_infos))
      else Err (AssertionError "")
  | _ => Err (AssertionError "")
  end.

(** The first [n] records held by the queues, oldest first. *)
Fixpoint buffered_records (n : nat) (columns : dict (list DataType))
  : list (dict DataType) :=
  match n with
  | O => []
  | S n' =>
      match pop_columns columns with
      | (Ok record, columns') => record :: buffered_records n' columns'
      | (Err _, _) => []
      end
  end.

(** [f] on every element, up to the first exception. *)
Fixpoint res_map {A B} (f : A -> Res B) (l : list A) : Res (list B) :=
  match l with
  | [] => Ok []
  | a :: rest =>
      b <-- f a ;;
      bs <-- res_map f rest ;;
      Ok (b :: bs)
  end.

(** The queues once drained: the same names, nothing buffered. *)
Definition drained (columns : dict (list DataType)) : dict (list DataType) :=
  map (fun kq => (fst kq, @nil DataType)) columns.

(** The monitor is ready to export: [export_schema] has set the converter
    and the client, and the options read by the loop are the given ones. *)
Definition ready (version : option string) (tags : option (dict DataType))
    (fields : _FieldStats) (mapping : Mapping)
    (w : World) (rows : list ArizeRow) : Prop :=
  _data_converter (self w) = Some (fields, mapping)
  /\ _client (self w) = Some rows
  /\ model_version (self w) = version
  /\ model_tags (self w) = tags.

(** ** Views of the state used by the properties *)

(** The queue bound to a name; a name not bound yet stands for the empty
    deque that the [defaultdict] would create for it. *)
Definition queue_of (columns : dict (list DataType)) (k : string)
  : list DataType :=
  match dict_get columns k with
  | Some q => q
  | None => []
  end.

(** The names bound in a dictionary, in insertion order. *)
Definition keys {V} (d : dict V) : list string := map fst d.

(** Everything of the instance but the queues, the first-value flag and the
    client is the same. *)
Definition same_settings (m m' : ArizeMonitor) : Prop :=
  model_type m' = model_type m
  /\ model_id m' = model_id m
  /\ model_version m' = model_version m
  /\ environment m' = environment m
  /\ model_tags m' = model_tags m
  /\ _is_recording m' = _is_recording m
  /\ _is_first_record m' = _is_first_record m
  /\ _schema m' = _schema m
  /\ _arize_schema m' = _arize_schema m
  /\ _data_converter m' = _data_converter m.

(** What a drain may do to the state: add rows at the end of those the
    client has, and take values out of the queues, at least one for each
    row added; the names of the queues, the first-value flag and the
    settings stay. *)
Definition drained_from (w w' : World) : Prop :=
  same_settings (self w) (self w')
  /\ _is_first_column (self w') = _is_first_column (self w)
  /\ keys (_columns (self w')) = keys (_columns (self w))
  /\ exists new,
       rows_sent (self w') = rows_sent (self w) ++ new
       /\ List.length new + buffered (_columns (self w'))
          <= buffered (_columns (self w)).

(** A call of one of the methods of the monitor. *)
Inductive Call : Type :=
| CallStartRecord
| CallLog (data : DataType) (name role data_type : string)
| CallLogBatch (data_batch : list DataType) (name role data_type : string)
| CallStopRecord.

Definition run_call (ctx : Ambient) (c : Call) : Py.t World unit :=
  match c with
  | CallStartRecord => start_record
  | CallLog data name role data_type => log ctx data name role data_type
  | CallLogBatch data_batch name role data_type =>
      log_batch ctx data_batch name role data_type
  | CallStopRecord => stop_record ctx
  end.

(** A caller that makes the calls one after the other, each with the
    ambient values of its moment, and goes on after an exception. *)
Fixpoint run_calls (calls : list (Ambient * Call)) (w : World) : World :=
  match calls with
  | [] => w
  | (ctx, c) :: rest => run_calls rest (snd (run_call ctx c w))
  end.

(** The buckets that [_map_data] indexes at 0 for a mapping. *)
Definition indexed_buckets (fields : _FieldStats) (mapping : Mapping)
  : list (list string) :=
  match mapping with
  | SCORED_CLASSIFICATION =>
      [prediction_label_columns fields; prediction_score_columns fields;
       actual_label_columns fields; actual_score_columns fields]
  | CLASSIFICATION =>
      [prediction_label_columns fields; actual_label_columns fields]
  | REGRESSION =>
      [prediction_score_columns fields ++ prediction_label_columns fields;
       actual_score_columns fields ++ actual_label_columns fields]
  | RANKING =>
      [prediction_score_columns fields; actual_score_columns fields]
  end.

(** Every column named in a bucket. *)
Definition all_columns (fields : _FieldStats) : list string :=
  prediction_label_columns fields ++ prediction_score_columns fields
  ++ actual_label_columns fields ++ actual_score_columns fields
  ++ feature_columns fields ++ embedding_feature_columns fields.

(** One value to log, with the name, role and type of its column. *)
Record LogEntry : Type := mkLogEntry {
  entry_data : DataType;
  entry_name : string;
  entry_role : string;
  entry_type : string
}.

(** The calls of [log] for the entries, in order, up to the first
    exception. *)
Fixpoint log_each (ctx : Ambient) (entries : list LogEntry) : Py.t World unit :=
  match entries with
  | [] => Py.ret tt
  | e :: rest =>
      log ctx (entry_data e) (entry_name e) (entry_role e) (entry_type e) ;;;
      log_each ctx rest
  end.

(** A label bucket and a score bucket are both filled on one side. *)
Definition has_scored_side (fields : _FieldStats) : bool :=
  (truthy (prediction_label_columns fields)
   && truthy (prediction_score_columns fields))
  || (truthy (actual_label_columns fields)
      && truthy (actual_score_columns fields)).

(** There is a label column, predicted or actual. *)
Definition has_label (fields : _FieldStats) : bool :=
  truthy (prediction_label_columns fields)
  || truthy (actual_label_columns fields).

(** Queues with the given names and nothing buffered. *)
Definition empty_queues (names : list string) : dict (list DataType) :=
  map (fun k => (k, @nil DataType)) names.

(** The record that the entries make with the timestamp and the request id
    stamped by the first of them. *)
Definition entry_record (ctx : Ambient) (rid : Z) (entries : list LogEntry)
  : dict DataType :=
  (COLUMN_TIME, PyFloat (now_timestamp ctx))
  :: (COLUMN_RID, PyInt rid)
  :: map (fun e => (entry_name e, entry_data e)) entries.

(** The arguments of an entry pass the three checks of [log]. *)
Definition entry_accepted (e : LogEntry) : Prop :=
  str_in (entry_name e) PRESERVED_COLUMNS = false
  /\ str_in (entry_role e) BENTOML_MONITOR_ROLES = true
  /\ str_in (entry_type e) BENTOML_MONITOR_TYPES = true.

(** One record from [start_record] to [stop_record]. *)
Definition log_record (ctx : Ambient) (entries : list LogEntry)
  : Py.t World unit :=
  start_record ;;; log_each ctx entries ;;; stop_record ctx.

(** The state of the instance after a call of [log] that raises nothing. *)
Definition logged (ctx : Ambient) (rid : Z) (data : DataType)
    (name role data_type : string) (m : ArizeMonitor) : ArizeMonitor :=
  let m1 :=
    if _is_first_record m
    then set_schema (_schema m ++ [mkColumn name role data_type]) m
    else m in
  let m2 :=
    if _is_first_column m1 then
      set_columns
        (columns_append
           (columns_append (_columns m1) COLUMN_TIME (PyFloat (now_timestamp ctx)))
           COLUMN_RID (PyInt rid))
        (set_is_first_column false m1)
    else m1 in
  set_columns (columns_append (_columns m2) name data) m2.

(** ** Example runs *)

(** The binary64 number nearest to 0.9, the value of the Python literal. *)
Definition float_0_9 : float := 0x1.ccccccccccccdp-1%float.

Definition example_ambient : Ambient :=
  mkAmbient 1700000000.25%float (Some 7%Z) (Some "bento") (Some "v1").

(** A monitor just constructed, with the given [model_type], and an empty
    logger. *)
Definition fresh_world (hint : option ModelTypes) : World :=
  mkWorld (new_ArizeMonitor hint None None None None) [].

(** One record with a numerical feature, a categorical prediction, a
    numerical prediction and a categorical target. *)
Definition scenario_B_logs : Py.t World unit :=
  start_record ;;;
  log example_ambient (PyInt 30) "age" "feature" "numerical" ;;;
  log example_ambient (PyStr "yes") "pred_label" "prediction" "categorical" ;;;
  log example_ambient (PyFloat float_0_9) "pred_score" "prediction" "numerical" ;;;
  log example_ambient (PyStr "yes") "label" "target" "categorical".

Definition scenario_B : Py.t World unit :=
  scenario_B_logs ;;; stop_record example_ambient.

Definition scenario_B_fields : _FieldStats :=
  mk_FieldStats ["pred_label"] ["pred_score"] ["label"] [] ["age"] [].

Definition scenario_B_record : dict DataType :=
  [("timestamp", PyFloat 1700000000.25%float); ("request_id", PyInt 7);
   ("age", PyInt 30); ("pred_label", PyStr "yes");
   ("pred_score", PyFloat float_0_9); ("label", PyStr "yes")].

(** Scenario A: one record with a numerical feature, a categorical
    prediction and a categorical target. *)
Definition scenario_A : Py.t World unit :=
  start_record ;;;
  log example_ambient (PyInt 30) "age" "feature" "numerical" ;;;
  log example_ambient (PyStr "yes") "pred_label" "prediction" "categorical" ;;;
  log example_ambient (PyStr "yes") "label" "target" "categorical" ;;;
  stop_record example_ambient.

Definition scenario_A_fields : _FieldStats :=
  mk_FieldStats ["pred_label"] [] ["label"] [] ["age"] [].

Definition scenario_A_row (rid : Z) (ts : Z) (age : Z) (pred label : string)
  : ArizeRow :=
  mkArizeRow "bento" SCORE_CATEGORICAL PRODUCTION (Some "v1") None
    (PyInt rid) ts None (Scalar (PyStr pred)) (Scalar (PyStr label))
    [("age", PyInt age)] [].

(** A monitor past its first record, with two records of the columns of
    Scenario A buffered. *)
Definition two_records_world : World :=
  mkWorld
    (mkArizeMonitor (Some SCORE_CATEGORICAL) (Some "bento") (Some "v1")
       (Some PRODUCTION) None false false false
       [mkColumn "age" "feature" "numerical";
        mkColumn "pred_label" "prediction" "categorical";
        mkColumn "label" "target" "categorical"]
       []
       [("timestamp", [PyFloat 1700000000.25%float; PyFloat 1700000001.5%float]);
        ("request_id", [PyInt 7; PyInt 8]);
        ("age", [PyInt 30; PyInt 41]);
        ("pred_label", [PyStr "yes"; PyStr "no"]);
        ("label", [PyStr "yes"; PyStr "yes"])]
       (Some (scenario_A_fields, CLASSIFICATION))
       (Some []))
    [].

(** A monitor past its first record, set up for the columns of Scenario A,
    with nothing buffered and nothing sent. *)
Definition ready_world : World :=
  mkWorld
    (mkArizeMonitor (Some SCORE_CATEGORICAL) (Some "bento") (Some "v1")
       (Some PRODUCTION) None false false false
       [mkColumn "age" "feature" "numerical";
        mkColumn "pred_label" "prediction" "categorical";
        mkColumn "label" "target" "categorical"]
       []
       (empty_queues ["timestamp"; "request_id"; "age"; "pred_label"; "label"])
       (Some (scenario_A_fields, CLASSIFICATION))
       (Some []))
    [].

Definition later_entries : list LogEntry :=
  [mkLogEntry (PyInt 41) "age" "feature" "numerical";
   mkLogEntry (PyStr "no") "pred_label" "prediction" "categorical";
   mkLogEntry (PyStr "yes") "label" "target" "categorical"].

(** One record with a single user column, a categorical prediction. *)
Definition one_label_logs : Py.t World unit :=
  start_record ;;;
  log example_ambient (PyStr "yes") "pred_label" "prediction" "categorical".

Definition one_label_record : Py.t World unit :=
  one_label_logs ;;; stop_record example_ambient.

(** A record closed without any value logged. *)
Definition empty_record (ctx : Ambient) : Py.t World unit :=
  start_record ;;; stop_record ctx.

(** Two columns logged an unequal number of times. *)
Definition unequal_world : World :=
  mkWorld
    (set_columns
       [("timestamp", [PyFloat 1700000000.25%float]); ("request_id", [PyInt 7]);
        ("a", [PyInt 1; PyInt 2]); ("b", [PyInt 1])]
       (new_ArizeMonitor None None None None None))
    [].

Lemma fields_app_nil_r f : fields_app f new_FieldStats = f.
Proof.
  destruct f; unfold fields_app; simpl; now rewrite !app_nil_r.
Qed.

Lemma fields_app_nil_l f : fields_app new_FieldStats f = f.
Proof. now destruct f. Qed.

Lemma fields_app_assoc f g h :
  fields_app (fields_app f g) h = fields_app f (fields_app g h).
Proof.
  unfold fields_app; simpl; now rewrite <- !app_assoc.
Qed.

Lemma classify_spec_cons c schema :
  classify_spec (c :: schema) = fields_app (classify_spec [c]) (classify_spec schema).
Proof.
  unfold classify_spec, fields_app, bucket_spec; simpl.
  destruct (route_column c); reflexivity.
Qed.

Ltac fields_eq fields :=
  destruct fields;
  unfold fields_app, append_embedding_feature, append_feature,
    append_prediction_label, append_prediction_score, append_actual_label,
    append_actual_score;
  cbn; rewrite ?app_nil_r; reflexivity.

(** One iteration of the loop adds the column to the bucket of the table, or
    drops it with one warning. *)
Lemma stat_column_spec fields c l :
  exists ws,
    stat_column fields c l = (Ok (fields_app fields (classify_spec [c])), l ++ ws)
    /\ List.length ws = List.length (bucket_spec Dropped [c]).
Proof.
  destruct c as [n r ty].
  unfold stat_column, classify_spec, bucket_spec, route_column, route_spec,
    Py.bind, warning, Py.modify, Py.ret.
  cbn.
  destruct (String.eqb_spec r "feature") as [-> | Hf];
    [ | destruct (String.eqb_spec r "prediction") as [-> | Hp];
        [ | destruct (String.eqb_spec r "target") as [-> | Ht] ] ];
    (destruct (String.eqb_spec ty "numerical_sequence") as [-> | Hs];
     [ | destruct (String.eqb_spec ty "categorical") as [-> | Hc];
         [ | destruct (String.eqb_spec ty "numerical") as [-> | Hn] ] ]);
    cbn;
    first
      [ exists []; rewrite app_nil_r; split; [ fields_eq fields | reflexivity ]
      | eexists [_]; split; [ fields_eq fields | reflexivity ] ].
Qed.

Lemma bucket_spec_cons b c schema :
  bucket_spec b (c :: schema) = bucket_spec b [c] ++ bucket_spec b schema.
Proof.
  unfold bucket_spec; simpl.
  destruct (Bucket_eqb (route_column c) b); reflexivity.
Qed.

Lemma stat_columns_spec schema : forall fields l,
  exists ws,
    stat_columns schema fields l
    = (Ok (fields_app fields (classify_spec schema)), l ++ ws)
    /\ List.length ws = List.length (bucket_spec Dropped schema).
Proof.
  induction schema as [ | c schema IH]; intros fields l.
  - exists []. change (classify_spec []) with new_FieldStats.
    now rewrite app_nil_r, fields_app_nil_r.
  - destruct (stat_column_spec fields c l) as (ws1 & Hc & Hlen1).
    destruct (IH (fields_app fields (classify_spec [c])) (l ++ ws1))
      as (ws2 & Hrest & Hlen2).
    exists (ws1 ++ ws2). split.
    + cbn [stat_columns]. unfold Py.bind. rewrite Hc, Hrest.
      now rewrite fields_app_assoc, <- classify_spec_cons, app_assoc.
    + rewrite bucket_spec_cons, !length_app. congruence.
Qed.

(** The rows of the routing table, on the roles and types that [log] lets
    through. *)
Example route_spec_table :
  route_spec "feature" "numerical_sequence" = EmbeddingFeature
  /\ route_spec "feature" "numerical" = Feature
  /\ route_spec "feature" "categorical" = Feature
  /\ route_spec "prediction" "categorical" = PredictionLabel
  /\ route_spec "prediction" "numerical" = PredictionScore
  /\ route_spec "prediction" "numerical_sequence" = Dropped
  /\ route_spec "target" "categorical" = ActualLabel
  /\ route_spec "target" "numerical" = ActualScore
  /\ route_spec "target" "numerical_sequence" = Dropped.
Proof. repeat split. Qed.

(** C6. [_stat_fields] is a function of the schema alone: whatever the
    logger holds, it returns the buckets of the routing table
    (feature/numerical_sequence to embedding_feature, other features to
    feature, prediction/categorical to prediction_label,
    prediction/numerical to prediction_score, target/categorical to
    actual_label, target/numerical to actual_score, the rest dropped), each
    bucket in declaration order, and its only effect is one warning per
    dropped column, appended to the logger. *)
Theorem stat_fields_routes_by_table (schema : list Column) (l : Logger) :
  exists ws,
    _stat_fields schema l = (Ok (classify_spec schema), l ++ ws)
    /\ List.length ws = List.length (bucket_spec Dropped schema).
Proof.
  unfold _stat_fields.
  destruct (stat_columns_spec schema new_FieldStats l) as (ws & H & Hlen).
  exists ws. now rewrite H, fields_app_nil_l.
Qed.

(** ** Mapping inference *)

Lemma truthy_true {A} (l : list A) : l <> [] -> truthy l = true.
Proof. now destruct l. Qed.

(** With no hint, a label bucket and a score bucket filled on one side give
    SCORED_CLASSIFICATION, whatever the other buckets hold. *)
Lemma infer_scored_of_fields fields l :
  (prediction_label_columns fields <> [] /\ prediction_score_columns fields <> [])
  \/ (actual_label_columns fields <> [] /\ actual_score_columns fields <> []) ->
  _infer_mapping fields None l = (Ok SCORED_CLASSIFICATION, l).
Proof.
  intros H.
  unfold _infer_mapping, _is_valid_scored_classification_form, Py.bind.
  destruct H as [[Hl Hs] | [Hl Hs]].
  - now rewrite (truthy_true Hl), (truthy_true Hs).
  - rewrite (truthy_true Hl), (truthy_true Hs).
    now destruct (truthy (prediction_label_columns fields)
                  && truthy (prediction_score_columns fields)).
Qed.

(** C5. A schema whose buckets hold, on the same side, a label column and a
    score column is inferred as SCORED_CLASSIFICATION when no hint is given:
    the scored-classification test comes first and its success decides. *)
Theorem infer_label_and_score_is_scored_classification
    (schema : list Column) (l0 l1 : Logger) (fields : _FieldStats) :
  _stat_fields schema l0 = (Ok fields, l1) ->
  (prediction_label_columns fields <> [] /\ prediction_score_columns fields <> [])
  \/ (actual_label_columns fields <> [] /\ actual_score_columns fields <> []) ->
  forall l, _infer_mapping fields None l = (Ok SCORED_CLASSIFICATION, l).
Proof.
  intros _ H l. now apply infer_scored_of_fields.
Qed.

Lemma infer_label_and_score_witness :
  _infer_mapping
    (classify_spec [mkColumn "pred_label" "prediction" "categorical";
                    mkColumn "pred_score" "prediction" "numerical"])
    None [] = (Ok SCORED_CLASSIFICATION, []).
Proof.
  apply (@infer_label_and_score_is_scored_classification
           [mkColumn "pred_label" "prediction" "categorical";
            mkColumn "pred_score" "prediction" "numerical"] [] []).
  - reflexivity.
  - left. split; discriminate.
Defined.

Lemma ModelTypes_eqb_eq a b : ModelTypes_eqb a b = true <-> a = b.
Proof.
  destruct a, b; simpl; split; intros H; try congruence; try reflexivity.
  - apply String.eqb_eq in H. now subst.
  - injection H as ->. apply String.eqb_refl.
Qed.

(** C7. A hint that is neither SCORE_CATEGORICAL nor NUMERIC never fails:
    one warning is logged and REGRESSION is returned, for any buckets and
    without a validity test being run. *)
Theorem infer_unsupported_hint_falls_back
    (fields : _FieldStats) (hint : ModelTypes) (l : Logger) :
  hint <> SCORE_CATEGORICAL ->
  hint <> NUMERIC ->
  _infer_mapping fields (Some hint) l
  = (Ok REGRESSION, l ++ [mkLogRecord msg_unsupported_model_type []]).
Proof.
  intros Hc Hn. unfold _infer_mapping.
  destruct (ModelTypes_eqb hint SCORE_CATEGORICAL) eqn:E1.
  { apply ModelTypes_eqb_eq in E1. contradiction. }
  destruct (ModelTypes_eqb hint NUMERIC) eqn:E2.
  { apply ModelTypes_eqb_eq in E2. contradiction. }
  reflexivity.
Qed.

Lemma infer_unsupported_hint_witness :
  _infer_mapping new_FieldStats (Some (OTHER_MODEL_TYPE "RANKING")) []
  = (Ok REGRESSION, [mkLogRecord msg_unsupported_model_type []]).
Proof.
  apply (@infer_unsupported_hint_falls_back
           new_FieldStats (OTHER_MODEL_TYPE "RANKING") []); discriminate.
Defined.

(** [_FieldStats] has no attribute [is_filled], so the assertion that opens
    [_is_valid_regression_form] raises before any bucket is looked at. *)
Lemma is_valid_regression_form_raises fields warn l :
  _is_valid_regression_form fields warn l
  = (Err (AttributeError "_FieldStats" "is_filled"), l).
Proof. reflexivity. Qed.

(** With no hint, once the two classification tests have failed the
    regression test is reached, and the inference ends with its
    [AttributeError]: neither REGRESSION nor the [ValueError] of the last
    branch is ever produced. *)
Lemma infer_no_hint_reaches_regression fields l :
  _is_valid_scored_classification_form fields false l = (Ok false, l) ->
  _is_valid_classification_form fields false l = (Ok false, l) ->
  _infer_mapping fields None l
  = (Err (AttributeError "_FieldStats" "is_filled"), l).
Proof.
  intros Hs Hc. unfold _infer_mapping, Py.bind. now rewrite Hs, Hc.
Qed.

(** C1. On the schema made of one numerical prediction column (a prediction
    score and nothing else) [_infer_mapping] without hint does not return
    REGRESSION: the regression test, which raises [AttributeError] on every
    bucket configuration, ends the inference with that exception. *)
Theorem infer_score_only_raises_attribute_error :
  _stat_fields [mkColumn "pred_score" "prediction" "numerical"] []
  = (Ok (mk_FieldStats [] ["pred_score"] [] [] [] []), [])
  /\ _infer_mapping (mk_FieldStats [] ["pred_score"] [] [] [] []) None []
     = (Err (AttributeError "_FieldStats" "is_filled"), [])
  /\ forall fields warn l,
       _is_valid_regression_form fields warn l
       = (Err (AttributeError "_FieldStats" "is_filled"), l).
Proof.
  split; [ reflexivity | split; [ | intros; reflexivity ] ].
  now apply infer_no_hint_reaches_regression.
Qed.

(** C2. On the empty schema, whose buckets pass none of the three tests,
    [_infer_mapping] without hint does not reach its [ValueError]: the
    regression test raises [AttributeError] first. *)
Theorem infer_no_valid_mapping_raises_attribute_error :
  _stat_fields [] [] = (Ok new_FieldStats, [])
  /\ _is_valid_scored_classification_form new_FieldStats false [] = (Ok false, [])
  /\ _is_valid_classification_form new_FieldStats false [] = (Ok false, [])
  /\ _infer_mapping new_FieldStats None []
     = (Err (AttributeError "_FieldStats" "is_filled"), []).
Proof.
  do 3 (split; [ reflexivity | ]).
  now apply infer_no_hint_reaches_regression.
Qed.

(** ** Logging *)

(** C10. When [log] is given a reserved column name, a role outside
    feature/prediction/target or a type outside
    numerical/categorical/numerical_sequence, it raises and the whole state
    is the one before the call: schema, queues, flags and logger. *)
Theorem log_rejected_arguments_leave_state
    (ctx : Ambient) (data : DataType) (name role data_type : string) (w : World) :
  str_in name PRESERVED_COLUMNS = true
  \/ str_in role BENTOML_MONITOR_ROLES = false
  \/ str_in data_type BENTOML_MONITOR_TYPES = false ->
  log ctx data name role data_type w
  = (Err (log_argument_error name role data_type), w).
Proof.
  intros H. unfold log, log_argument_error, Py.bind, Py.assert, Py.raise, Py.ret.
  destruct (str_in name PRESERVED_COLUMNS); [ reflexivity | ].
  destruct (str_in role BENTOML_MONITOR_ROLES); [ | reflexivity ].
  destruct (str_in data_type BENTOML_MONITOR_TYPES); [ | reflexivity ].
  destruct H as [H | [H | H]]; discriminate.
Qed.

(** ** Export *)

Lemma nodup_two_distinct (l : list nat) (a b : nat) :
  In a l -> In b l -> a <> b -> 2 <= List.length (nodup Nat.eq_dec l).
Proof.
  intros Ha Hb Hab.
  apply (nodup_In Nat.eq_dec) in Ha, Hb.
  destruct (nodup Nat.eq_dec l) as [ | x [ | y d]]; simpl in *.
  - contradiction.
  - destruct Ha as [<- | []], Hb as [<- | []]. contradiction.
  - lia.
Qed.

(** C8. When two queues of [_columns] differ in length, [export_data] fails
    on its first assertion and leaves the state as it was: no queue is
    popped and no row is sent to the client. *)
Theorem export_data_unequal_queues
    (w : World) (k1 k2 : string) (q1 q2 : list DataType) :
  In (k1, q1) (_columns (self w)) ->
  In (k2, q2) (_columns (self w)) ->
  List.length q1 <> List.length q2 ->
  export_data w
  = (Err (AssertionError "All columns must have the same length"), w).
Proof.
  intros H1 H2 Hne.
  assert (Hlen : 2 <= List.length (queue_lengths (_columns (self w)))).
  { apply nodup_two_distinct with (a := List.length q1) (b := List.length q2);
      [ | | exact Hne ].
    - now apply (in_map (fun kv => List.length (snd kv)) _ (k1, q1)).
    - now apply (in_map (fun kv => List.length (snd kv)) _ (k2, q2)). }
  unfold export_data, Py.bind, get_self, Py.assert.
  destruct (Nat.eqb_spec (List.length (queue_lengths (_columns (self w)))) 1)
    as [E | E]; [ lia | reflexivity ].
Qed.

Lemma log_rejected_arguments_witness :
  log example_ambient (PyInt 1) "timestamp" "feature" "numerical" (fresh_world None)
  = (Err (ValueError "Column name timestamp is preserved. Please use a different name."),
     fresh_world None).
Proof.
  apply (@log_rejected_arguments_leave_state
           example_ambient (PyInt 1) "timestamp" "feature" "numerical"
           (fresh_world None)).
  left. reflexivity.
Defined.

Lemma export_data_unequal_queues_witness :
  export_data unequal_world
  = (Err (AssertionError "All columns must have the same length"), unequal_world).
Proof.
  apply (@export_data_unequal_queues unequal_world "a" "b"
           [PyInt 1; PyInt 2] [PyInt 1]).
  - simpl. auto.
  - simpl. auto.
  - simpl. lia.
Defined.

(** ** Closing a record *)

(** A successful [export_schema] leaves the queues and the first-value flag
    alone and installs a client that has received nothing. *)
Lemma export_schema_ok ctx w w1 :
  export_schema ctx w = (Ok tt, w1) ->
  _columns (self w1) = _columns (self w)
  /\ _is_first_column (self w1) = _is_first_column (self w)
  /\ _client (self w1) = Some [].
Proof.
  unfold export_schema, Py.bind, get_self, with_logger, update_self, Py.ret,
    Py.lift_res.
  destruct (_stat_fields (_schema (self w)) (logger w)) as [[fields | e] l1];
    [ | discriminate ].
  cbn [self logger].
  destruct (_infer_mapping fields (model_type (self w)) l1) as [[mapping | e] l2];
    [ | discriminate ].
  cbn [self logger].
  destruct (model_type (self w)) as [mt | ];
    [ | destruct (_mapping_to_model_type mapping) as [mt | e]; [ | discriminate ] ];
    destruct (model_version (self w)), (model_id (self w)), (environment (self w));
    intros H; injection H as <-; repeat split.
Qed.

(** On a record that is not the first, closing without a logged value
    changes nothing but the logger. *)
Lemma stop_record_empty_later_record ctx w :
  _is_first_record (self w) = false ->
  empty_record ctx w
  = (Ok tt, mkWorld (set_is_first_column true (self w))
                    (logger w ++ [mkLogRecord msg_no_data []])).
Proof.
  intros H.
  unfold empty_record, start_record, stop_record, Py.bind, get_self,
    update_self, Py.ret.
  cbn. rewrite H. reflexivity.
Qed.

(** On the first record, [stop_record] runs [export_schema] before it looks
    at the first-value flag, and stops there when that fails. *)
Lemma stop_record_empty_first_record ctx w :
  _is_first_record (self w) = true ->
  empty_record ctx w
  = match export_schema ctx (mkWorld (set_is_first_column true (self w)) (logger w)) with
    | (Ok _, w1) =>
        (Ok tt, mkWorld (set_is_first_record false (self w1))
                        (logger w1 ++ [mkLogRecord msg_no_data []]))
    | (Err e, w1) => (Err e, w1)
    end.
Proof.
  intros H.
  unfold empty_record, start_record, stop_record, Py.bind, get_self,
    update_self, Py.ret.
  remember (export_schema ctx) as es eqn:Hes.
  cbn. rewrite H.
  destruct (es (mkWorld (set_is_first_column true (self w)) (logger w)))
    as [[[] | e] w1] eqn:E; [ | reflexivity ].
  cbn. subst es. apply export_schema_ok in E. destruct E as (_ & Hfirst & _).
  cbn in Hfirst. rewrite Hfirst. reflexivity.
Qed.

(** C4, as stated, fails: on a monitor built with the SCORE_CATEGORICAL hint,
    closing an empty first record raises the [ValueError] of the mapping
    inference, and the warning is not logged. *)
Lemma stop_record_empty_first_record_raises :
  empty_record example_ambient (fresh_world (Some SCORE_CATEGORICAL))
  = (Err (ValueError "Not a valid arize classification schema"),
     mkWorld (set_is_first_column true
                (new_ArizeMonitor (Some SCORE_CATEGORICAL) None None None None))
             []).
Proof. reflexivity. Qed.

(** C4, amended. A record closed without a logged value is skipped, with the
    warning as the last record logged, the queues untouched and no new row at
    the client, whenever the record is not the first of the monitor or the
    schema export that the first [stop_record] runs beforehand succeeds. *)
Theorem stop_record_skips_empty_record (ctx : Ambient) (w : World) :
  _is_first_record (self w) = false
  \/ (exists w1,
        export_schema ctx (mkWorld (set_is_first_column true (self w)) (logger w))
        = (Ok tt, w1)) ->
  exists w',
    empty_record ctx w = (Ok tt, w')
    /\ (exists l, logger w' = l ++ [mkLogRecord msg_no_data []])
    /\ _columns (self w') = _columns (self w)
    /\ (forall row, In row (rows_sent (self w')) -> In row (rows_sent (self w))).
Proof.
  intros H.
  destruct (_is_first_record (self w)) eqn:First.
  - destruct H as [H | [w1 H]]; [ discriminate | ].
    rewrite (stop_record_empty_first_record ctx w First), H.
    apply export_schema_ok in H. destruct H as (Hcols & _ & Hclient).
    eexists. split; [ reflexivity | ]. cbn.
    split; [ now exists (logger w1) | ].
    split; [ exact Hcols | ].
    unfold rows_sent at 1. cbn. rewrite Hclient. intros row [].
  - rewrite (stop_record_empty_later_record ctx w First).
    eexists. split; [ reflexivity | ]. cbn.
    split; [ now exists (logger w) | ].
    split; [ reflexivity | ]. unfold rows_sent. cbn. auto.
Qed.

Lemma stop_record_skips_empty_record_witness :
  exists w',
    empty_record example_ambient
      (mkWorld (set_is_first_record false
                  (new_ArizeMonitor None None None None None)) [])
    = (Ok tt, w')
    /\ (exists l, logger w' = l ++ [mkLogRecord msg_no_data []])
    /\ _columns (self w') = []
    /\ (forall row, In row (rows_sent (self w')) -> In row []).
Proof.
  apply (@stop_record_skips_empty_record example_ambient
           (mkWorld (set_is_first_record false
                       (new_ArizeMonitor None None None None None)) [])).
  left. reflexivity.
Defined.

(** On a first record, an unsupported hint lets the schema export through,
    and the empty record is skipped with the two warnings. *)
Example stop_record_empty_first_record_unsupported_hint :
  empty_record example_ambient (fresh_world (Some (OTHER_MODEL_TYPE "RANKING")))
  = (Ok tt,
     mkWorld
       (mkArizeMonitor (Some (OTHER_MODEL_TYPE "RANKING")) (Some "bento")
          (Some "v1") (Some PRODUCTION) None false false true [] [] []
          (Some (new_FieldStats, REGRESSION)) (Some []))
       [mkLogRecord msg_unsupported_model_type []; mkLogRecord msg_no_data []]).
Proof. reflexivity. Qed.

(** ** Records lost at export *)

(** C3. In Scenario B the mapping inferred is SCORED_CLASSIFICATION, but the
    export sends no row: there is no actual-score column, [_map_data] raises
    [IndexError] on [fields.actual_score_columns[0]], and the handler of the
    loop of [export_data], meant for the empty queue, takes it for the end of
    the drain. The values of the record have left the queues by then. *)
Theorem scenario_B_sends_no_row :
  _infer_mapping scenario_B_fields None [] = (Ok SCORED_CLASSIFICATION, [])
  /\ _map_data scenario_B_record scenario_B_fields SCORED_CLASSIFICATION []
     = (Err (IndexError "list index out of range"), [])
  /\ exists w0 w',
       scenario_B_logs (fresh_world None) = (Ok tt, w0)
       /\ buffered (_columns (self w0)) = 6
       /\ stop_record example_ambient w0 = (Ok tt, w')
       /\ scenario_B (fresh_world None) = (Ok tt, w')
       /\ _data_converter (self w')
          = Some (scenario_B_fields, SCORED_CLASSIFICATION)
       /\ _client (self w') = Some []
       /\ buffered (_columns (self w')) = 0
       /\ logger w' = [].
Proof.
  split; [ reflexivity | split; [ reflexivity | ] ].
  do 2 eexists.
  split; [ vm_compute; reflexivity | ].
  split; [ reflexivity | ].
  split; [ vm_compute; reflexivity | ].
  repeat split.
Qed.

(** C9. A first record with one user column, a categorical prediction,
    logged once: each of the three queues holds one value, and the export
    takes that value from each of them but sends no row, because
    [_map_data] raises [IndexError] on the empty actual-label bucket and the
    loop of [export_data] takes it for the end of the drain. *)
Theorem one_column_record_sends_no_row :
  exists w0 w',
    one_label_logs (fresh_world None) = (Ok tt, w0)
    /\ _columns (self w0)
       = [("timestamp", [PyFloat 1700000000.25%float]);
          ("request_id", [PyInt 7]); ("pred_label", [PyStr "yes"])]
    /\ stop_record example_ambient w0 = (Ok tt, w')
    /\ one_label_record (fresh_world None) = (Ok tt, w')
    /\ _data_converter (self w')
       = Some (mk_FieldStats ["pred_label"] [] [] [] [] [], CLASSIFICATION)
    /\ _client (self w') = Some []
    /\ _columns (self w')
       = [("timestamp", []); ("request_id", []); ("pred_label", [])].
Proof.
  do 2 eexists.
  split; [ vm_compute; reflexivity | ].
  split; [ reflexivity | ].
  split; [ vm_compute; reflexivity | ].
  repeat split.
Qed.

(** ** Termination of the drain *)

Lemma buffered_cons k q rest :
  buffered ((k, q) :: rest) = List.length q + buffered rest.
Proof. reflexivity. Qed.

Lemma pop_columns_ok columns record columns' :
  pop_columns columns = (Ok record, columns') ->
  List.length record = List.length columns
  /\ buffered columns = buffered columns' + List.length columns.
Proof.
  revert record columns'.
  induction columns as [ | [k q] rest IH]; intros record columns' H.
  - injection H as <- <-. split; reflexivity.
  - cbn [pop_columns] in H. destruct q as [ | v q']; [ discriminate | ].
    destruct (pop_columns rest) as [[rec' | e] rest'] eqn:E; [ | discriminate ].
    injection H as <- <-.
    destruct (IH rec' rest' eq_refl) as [Hlen Hbuf].
    rewrite !buffered_cons, Hbuf. cbn [List.length]. rewrite Hlen. split; lia.
Qed.

(** A row that goes through takes one value from every queue, and there is
    at least one queue, the one of the timestamps. *)
Ltac stuck_run := first [ discriminate | intros Habs; discriminate Habs ].

Lemma export_row_ok_decreases mid mty env w w' :
  export_row mid mty env w = (Ok tt, w') ->
  buffered (_columns (self w')) < buffered (_columns (self w)).
Proof.
  unfold export_row, Py.bind at 1, popleft_all.
  destruct (pop_columns (_columns (self w))) as [[record | e] columns'] eqn:Hpop;
    [ | stuck_run ].
  apply pop_columns_ok in Hpop. destruct Hpop as [Hlen Hbuf].
  unfold Py.bind, Py.lift_res, Py.assert, get_self, getattr, with_logger,
    client_log, update_self, Py.ret, Py.raise.
  destruct (dict_item record COLUMN_TIME) as [timestamp | e] eqn:Ht;
    [ | stuck_run ].
  assert (Hne : 0 < List.length record).
  { destruct record; [ discriminate | simpl; lia ]. }
  destruct (is_float timestamp); [ | stuck_run ].
  destruct (dict_item record COLUMN_RID) as [rid | e]; [ | stuck_run ].
  destruct (is_int rid); [ | stuck_run ].
  cbn [self logger].
  destruct (_data_converter (set_columns columns' (self w))) as [conv | ];
    [ | stuck_run ].
  cbn [self logger].
  destruct (_map_data record (fst conv) (snd conv) (logger w)) as [[infos | e] l'];
    [ | stuck_run ].
  destruct (_client (set_columns columns' (self w))) as [rows | ];
    [ | stuck_run ].
  cbn [self logger].
  destruct (match timestamp with PyFloat x => int_of_float x | _ => Err (AssertionError "") end)
    as [ts | e]; [ | stuck_run ].
  intros H. injection H as <-.
  unfold set_client, set_columns. cbn [self _columns]. lia.
Qed.

(** The loop of [export_data] ends within one iteration more than there are
    buffered values. *)
Lemma export_loop_terminates mid mty env : forall fuel w,
  buffered (_columns (self w)) < fuel ->
  exists r, export_loop fuel mid mty env w = Some r.
Proof.
  induction fuel as [ | fuel IH]; intros w Hlt; [ lia | ].
  cbn [export_loop].
  destruct (export_row mid mty env w) as [[[] | e] w'] eqn:E.
  - apply IH. apply export_row_ok_decreases in E. lia.
  - destruct (is_IndexError e); eexists; reflexivity.
Qed.

(** [export_data] always returns: with an outcome set by its assertions or
    by the loop, never by the bound on the iterations. *)
Lemma export_data_loop_result mid mty env w :
  exists r,
    export_loop (S (buffered (_columns (self w)))) mid mty env w = Some r.
Proof. apply export_loop_terminates. lia. Qed.

(** ** The drain when every record converts *)

Lemma map_data_without_warning record fields mapping l :
  mapping <> RANKING ->
  _map_data record fields mapping l = (map_data_res record fields mapping, l).
Proof.
  intros H. unfold _map_data, map_data_res, Py.bind, Py.lift_res, Py.ret, res_bind.
  destruct mapping; try contradiction; cbv beta iota;
    (destruct (map_labels record fields _); [ | reflexivity ]);
    (destruct (dict_comprehension (fun v => v) record _ []); [ | reflexivity ]);
    (destruct (dict_comprehension mkEmbedding record _ []); reflexivity).
Qed.

Lemma nodup_constant (n : nat) (l : list nat) :
  l <> [] -> Forall (eq n) l -> nodup Nat.eq_dec l = [n].
Proof.
  induction l as [ | a l IH]; intros Hne Hall; [ contradiction | ].
  apply Forall_cons_iff in Hall. destruct Hall as [<- Hall'].
  destruct l as [ | b l].
  - reflexivity.
  - cbn [nodup]. destruct (in_dec Nat.eq_dec n (b :: l)) as [ _ | Hnot].
    + apply IH; [ discriminate | exact Hall' ].
    + exfalso. apply Hnot. apply Forall_cons_iff in Hall'.
      destruct Hall' as [<- _]. now left.
Qed.

Lemma queue_lengths_uniform n columns :
  columns <> [] ->
  Forall (fun kq => List.length (snd kq) = n) columns ->
  queue_lengths columns = [n].
Proof.
  intros Hne Hall. unfold queue_lengths. apply nodup_constant.
  - destruct columns; [ contradiction | discriminate ].
  - apply Forall_map. eapply Forall_impl; [ | exact Hall ]. now intros kq <-.
Qed.

Lemma pop_columns_uniform n : forall columns,
  Forall (fun kq => List.length (snd kq) = S n) columns ->
  exists record columns',
    pop_columns columns = (Ok record, columns')
    /\ Forall (fun kq => List.length (snd kq) = n) columns'
    /\ drained columns' = drained columns
    /\ (columns <> [] -> columns' <> []).
Proof.
  induction columns as [ | [k q] rest IH]; intros Hall.
  - exists [], []. repeat split; auto.
  - inversion Hall as [ | ? ? Hq Hrest]; subst. cbn [snd] in Hq.
    destruct q as [ | v q']; [ discriminate | ].
    destruct (IH Hrest) as (record & rest' & Hpop & Hall' & Hdr & _).
    exists ((k, v) :: record), ((k, q') :: rest').
    cbn [pop_columns]. rewrite Hpop. repeat split.
    + constructor; [ cbn in *; lia | exact Hall' ].
    + unfold drained in *. cbn. now rewrite Hdr.
    + discriminate.
Qed.

Lemma pop_columns_empty columns :
  columns <> [] ->
  Forall (fun kq => List.length (snd kq) = 0) columns ->
  pop_columns columns = (Err (IndexError "pop from an empty deque"), columns)
  /\ drained columns = columns.
Proof.
  intros Hne Hall. split.
  - destruct columns as [ | [k q] rest]; [ contradiction | ].
    inversion Hall as [ | ? ? Hq _]; subst.
    destruct q; [ reflexivity | discriminate ].
  - clear Hne. induction Hall as [ | [k q] rest Hq _ IH]; [ reflexivity | ].
    unfold drained in *. cbn in *. rewrite IH.
    destruct q; [ reflexivity | discriminate ].
Qed.

Section Drain.

Variables (mid : string) (mty : ModelTypes) (env : Environments).
Variables (version : option string) (tags : option (dict DataType)).
Variables (fields : _FieldStats) (mapping : Mapping).
Hypothesis mapping_known : mapping <> RANKING.

(** One iteration on a popped record: the row of the record is sent, or its
    exception raised, with the record gone from the queues either way. *)
Lemma export_row_popped w rows record columns' :
  ready version tags fields mapping w rows ->
  pop_columns (_columns (self w)) = (Ok record, columns') ->
  export_row mid mty env w
  = match record_row mid mty env version tags fields mapping record with
    | Ok row =>
        (Ok tt, mkWorld (set_client (Some (rows ++ [row]))
                           (set_columns columns' (self w))) (logger w))
    | Err e => (Err e, mkWorld (set_columns columns' (self w)) (logger w))
    end.
Proof.
  intros (Hconv & Hclient & Hver & Htags) Hpop.
  unfold export_row, record_row, Py.bind at 1, popleft_all. rewrite Hpop.
  unfold Py.bind, Py.lift_res, Py.assert, get_self, getattr, with_logger,
    client_log, update_self, Py.ret, Py.raise, res_bind.
  destruct (dict_item record COLUMN_TIME) as [timestamp | e]; [ | reflexivity ].
  destruct timestamp; try reflexivity. cbn [is_float].
  destruct (dict_item record COLUMN_RID) as [rid | e]; [ | reflexivity ].
  destruct (is_int rid); [ | reflexivity ].
  cbn [self logger].
  change (_data_converter (set_columns columns' (self w)))
    with (_data_converter (self w)).
  change (_client (set_columns columns' (self w))) with (_client (self w)).
  change (model_version (set_columns columns' (self w)))
    with (model_version (self w)).
  change (model_tags (set_columns columns' (self w))) with (model_tags (self w)).
  rewrite Hconv, Hclient, Hver, Htags. cbn [fst snd].
  rewrite (map_data_without_warning _ _ _ mapping_known).
  destruct (map_data_res record fields mapping) as [infos | e]; [ | reflexivity ].
  cbn [self logger].
  destruct (int_of_float f) as [ts | e]; reflexivity.
Qed.

(** With [n] records buffered that all convert, the loop sends their [n]
    rows in order and stops on the empty queues. *)
Lemma export_loop_drains : forall n fuel w rows0 rows,
  n < fuel ->
  ready version tags fields mapping w rows0 ->
  _columns (self w) <> [] ->
  Forall (fun kq => List.length (snd kq) = n) (_columns (self w)) ->
  res_map (record_row mid mty env version tags fields mapping)
          (buffered_records n (_columns (self w))) = Ok rows ->
  exists w',
    export_loop fuel mid mty env w = Some (Ok tt, w')
    /\ _client (self w') = Some (rows0 ++ rows)
    /\ _columns (self w') = drained (_columns (self w))
    /\ logger w' = logger w
    /\ List.length rows = n.
Proof.
  induction n as [ | n IH]; intros fuel w rows0 rows Hfuel Hready Hne Hall Hrows.
  - destruct fuel as [ | fuel]; [ lia | ].
    destruct (pop_columns_empty Hne Hall) as [Hpop Hdr].
    injection Hrows as <-.
    exists w. cbn [export_loop].
    unfold export_row, Py.bind at 1, popleft_all. rewrite Hpop.
    assert (Hw : mkWorld (set_columns (_columns (self w)) (self w)) (logger w) = w).
    { destruct w as [[] ?]. reflexivity. }
    rewrite Hw. cbn [is_IndexError].
    destruct Hready as (_ & Hclient & _).
    rewrite app_nil_r, Hdr. repeat split; auto.
  - destruct fuel as [ | fuel]; [ lia | ].
    destruct (pop_columns_uniform Hall) as (record & columns' & Hpop & Hall' & Hdr & Hne').
    cbn [buffered_records] in Hrows. rewrite Hpop in Hrows.
    cbn [res_map] in Hrows. unfold res_bind in Hrows.
    destruct (record_row mid mty env version tags fields mapping record)
      as [row | e] eqn:Hrow; [ | discriminate ].
    destruct (res_map _ (buffered_records n columns')) as [rows' | e] eqn:Hrest;
      [ | discriminate ].
    injection Hrows as <-.
    cbn [export_loop]. rewrite (export_row_popped Hready Hpop), Hrow.
    destruct Hready as (Hconv & Hclient & Hver & Htags).
    destruct (IH fuel
                (mkWorld (set_client (Some (rows0 ++ [row]))
                            (set_columns columns' (self w))) (logger w))
                (rows0 ++ [row]) rows')
      as (w' & Hloop & Hclient' & Hcols' & Hlog' & Hlen');
      [ lia | repeat split; assumption | now apply Hne' | exact Hall' | exact Hrest | ].
    exists w'. split; [ exact Hloop | ].
    rewrite Hclient', Hcols', Hlog', <- app_assoc.
    unfold set_client, set_columns. cbn [self _columns logger app List.length].
    rewrite Hdr, Hlen'. repeat split.
Qed.

(** X14. The part of the round trip that holds: when the queues hold [n]
    records that all convert, one call of [export_data] sends exactly their
    [n] rows, oldest first, and leaves every queue empty. *)
Theorem export_data_drains w rows0 rows n :
  ready version tags fields mapping w rows0 ->
  model_id (self w) = Some mid ->
  model_type (self w) = Some mty ->
  environment (self w) = Some env ->
  _columns (self w) <> [] ->
  Forall (fun kq => List.length (snd kq) = n) (_columns (self w)) ->
  res_map (record_row mid mty env version tags fields mapping)
          (buffered_records n (_columns (self w))) = Ok rows ->
  exists w',
    export_data w = (Ok tt, w')
    /\ _client (self w') = Some (rows0 ++ rows)
    /\ _columns (self w') = drained (_columns (self w))
    /\ logger w' = logger w
    /\ List.length rows = n.
Proof.
  intros Hready Hmid Hmty Henv Hne Hall Hrows.
  destruct (@export_loop_drains n (S (buffered (_columns (self w)))) w rows0 rows)
    as (w' & Hloop & Hrest); try assumption.
  { destruct (_columns (self w)) as [ | [k q] rest]; [ contradiction | ].
    apply Forall_cons_iff in Hall. destruct Hall as [Hq _]. cbn in Hq.
    rewrite buffered_cons. lia. }
  exists w'. split; [ | exact Hrest ].
  unfold export_data, Py.bind, get_self, Py.assert, Py.ret.
  rewrite (queue_lengths_uniform Hne Hall), Hmid, Hmty, Henv.
  cbn [List.length Nat.eqb]. now rewrite Hloop.
Qed.

End Drain.

(** Scenario A goes through: the mapping is CLASSIFICATION, both label
    buckets are filled, and the one row reaches the client. *)
Example scenario_A_sends_one_row :
  exists w',
    scenario_A (fresh_world None) = (Ok tt, w')
    /\ _data_converter (self w') = Some (scenario_A_fields, CLASSIFICATION)
    /\ _client (self w') = Some [scenario_A_row 7 1700000000 30 "yes" "yes"]
    /\ buffered (_columns (self w')) = 0.
Proof.
  eexists. split; [ vm_compute; reflexivity | ]. repeat split.
Qed.

(** Two buffered records that convert give two rows, oldest first. *)
Example export_data_drains_two_records :
  exists w',
    export_data two_records_world = (Ok tt, w')
    /\ _client (self w')
       = Some [scenario_A_row 7 1700000000 30 "yes" "yes";
               scenario_A_row 8 1700000001 41 "no" "yes"]
    /\ buffered (_columns (self w')) = 0.
Proof.
  destruct (@export_data_drains "bento" SCORE_CATEGORICAL PRODUCTION (Some "v1")
              None scenario_A_fields CLASSIFICATION ltac:(discriminate)
              two_records_world []
              [scenario_A_row 7 1700000000 30 "yes" "yes";
               scenario_A_row 8 1700000001 41 "no" "yes"] 2)
    as (w' & Hrun & Hclient & Hcolumns & _);
    try reflexivity.
  - repeat split.
  - discriminate.
  - repeat constructor.
  - exists w'. rewrite Hcolumns. repeat split; assumption.
Defined.

(** The assertion on the request id of the tracing context comes after the
    first mutations of [log]: when it fails, the schema has grown, the
    first-value flag is cleared and the timestamp is buffered. *)
Remark log_without_request_id_changes_state :
  let ctx := mkAmbient 1700000000.25%float None (Some "bento") (Some "v1") in
  let w := mkWorld (set_is_first_column true
                      (new_ArizeMonitor None None None None None)) [] in
  exists w',
    log ctx (PyInt 30) "age" "feature" "numerical" w = (Err (AssertionError ""), w')
    /\ _schema (self w') = [mkColumn "age" "feature" "numerical"]
    /\ _is_first_column (self w') = false
    /\ _columns (self w') = [("timestamp", [PyFloat 1700000000.25%float])].
Proof.
  eexists. split; [ vm_compute; reflexivity | ]. repeat split.
Qed.

(** ** The queues as a dictionary *)

Lemma columns_append_get columns k v : forall k',
  dict_get (columns_append columns k v) k'
  = if k =? k'
    then Some (queue_of columns k ++ [v])
    else dict_get columns k'.
Proof.
  unfold queue_of.
  induction columns as [ | [k0 q] rest IH]; intros k'.
  - cbn. destruct (String.eqb_spec k k'); reflexivity.
  - cbn [columns_append dict_get].
    destruct (String.eqb_spec k0 k) as [-> | Hk0].
    + cbn [dict_get]. destruct (String.eqb_spec k k'); reflexivity.
    + cbn [dict_get]. rewrite IH.
      destruct (String.eqb_spec k0 k') as [-> | Hk0'].
      * destruct (String.eqb_spec k k'); [ congruence | reflexivity ].
      * reflexivity.
Qed.

Lemma queue_of_append columns k v k' :
  queue_of (columns_append columns k v) k'
  = queue_of columns k' ++ (if k =? k' then [v] else []).
Proof.
  unfold queue_of at 1. rewrite columns_append_get.
  destruct (String.eqb_spec k k') as [-> | Hk].
  - reflexivity.
  - fold (queue_of columns k'). now rewrite app_nil_r.
Qed.

Lemma str_in_In s l : str_in s l = true <-> In s l.
Proof.
  unfold str_in. rewrite existsb_exists. split.
  - intros (x & Hx & E). apply String.eqb_eq in E. now subst.
  - intros H. exists s. split; [ exact H | apply String.eqb_refl ].
Qed.

Lemma keys_append columns k v :
  keys (columns_append columns k v)
  = if str_in k (keys columns) then keys columns else keys columns ++ [k].
Proof.
  unfold keys, str_in.
  induction columns as [ | [k0 q] rest IH]; [ reflexivity | ].
  cbn [columns_append map fst existsb].
  rewrite (String.eqb_sym k k0).
  destruct (String.eqb_spec k0 k) as [-> | Hk0]; [ reflexivity | ].
  cbn [map fst orb]. rewrite IH.
  now destruct (existsb (String.eqb k) (map fst rest)).
Qed.

(** X1. [self._columns[k].append(v)] as a dictionary update: afterwards the
    queue of [k] is the former one (empty for a new name) with [v] at its
    end, every other name has the queue it had, and the names keep their
    order, a new name going last. *)
Theorem columns_append_lookup
    (columns : dict (list DataType)) (k k' : string) (v : DataType) :
  dict_get (columns_append columns k v) k'
  = (if k =? k' then Some (queue_of columns k ++ [v]) else dict_get columns k')
  /\ keys (columns_append columns k v)
     = (if str_in k (keys columns) then keys columns else keys columns ++ [k]).
Proof.
  split; [ apply columns_append_get | apply keys_append ].
Qed.

(** ** Calls of [log] that go through *)

(** When its arguments pass the three checks and the tracing context has a
    request id, [log] returns and the instance is [logged]. *)
Lemma log_accepted ctx rid data name role data_type w :
  str_in name PRESERVED_COLUMNS = false ->
  str_in role BENTOML_MONITOR_ROLES = true ->
  str_in data_type BENTOML_MONITOR_TYPES = true ->
  trace_request_id ctx = Some rid ->
  log ctx data name role data_type w
  = (Ok tt, mkWorld (logged ctx rid data name role data_type (self w)) (logger w)).
Proof.
  intros Hname Hrole Htype Hrid.
  unfold log, logged, Py.bind, Py.assert, Py.raise, Py.ret, get_self,
    update_self, append_to_column.
  rewrite Hname, Hrole, Htype, Hrid.
  destruct w as [m l]. cbn [self logger].
  destruct m as [mt mi mv en tg rec fr fc sc asc cols conv cl].
  cbn [_is_first_record _is_first_column].
  destruct fr, fc; reflexivity.
Qed.

Lemma queue_of_logged ctx rid data name role data_type m k :
  queue_of (_columns (logged ctx rid data name role data_type m)) k
  = queue_of (_columns m) k
    ++ (if _is_first_column m && (COLUMN_TIME =? k)
        then [PyFloat (now_timestamp ctx)] else [])
    ++ (if _is_first_column m && (COLUMN_RID =? k) then [PyInt rid] else [])
    ++ (if name =? k then [data] else []).
Proof.
  destruct m as [mt mi mv en tg rec fr fc sc asc cols conv cl].
  unfold logged. cbn [_is_first_record _is_first_column].
  destruct fr, fc; cbn [_is_first_column set_schema set_columns
                          set_is_first_column _columns andb];
    rewrite ?queue_of_append, <- ?app_assoc; reflexivity.
Qed.

(** X2. A call of [log] whose name is not reserved, whose role and type are
    known, and that finds a request id, returns. Afterwards every queue is
    the former one followed by what the call put in it: the timestamp and
    the request id if this is the first value of the record, the value for
    the queue of its column. The schema gets the column while the first
    record is open and is left alone afterwards, the first-value flag is
    cleared, and nothing else of the instance or of the logger changes. *)
Theorem log_accepted_appends
    (ctx : Ambient) (rid : Z) (data : DataType) (name role data_type : string)
    (w : World) :
  str_in name PRESERVED_COLUMNS = false ->
  str_in role BENTOML_MONITOR_ROLES = true ->
  str_in data_type BENTOML_MONITOR_TYPES = true ->
  trace_request_id ctx = Some rid ->
  exists w',
    log ctx data name role data_type w = (Ok tt, w')
    /\ (forall k,
          queue_of (_columns (self w')) k
          = queue_of (_columns (self w)) k
            ++ (if _is_first_column (self w) && (COLUMN_TIME =? k)
                then [PyFloat (now_timestamp ctx)] else [])
            ++ (if _is_first_column (self w) && (COLUMN_RID =? k)
                then [PyInt rid] else [])
            ++ (if name =? k then [data] else []))
    /\ _schema (self w')
       = (if _is_first_record (self w)
          then _schema (self w) ++ [mkColumn name role data_type]
          else _schema (self w))
    /\ _is_first_column (self w') = false
    /\ _is_first_record (self w') = _is_first_record (self w)
    /\ _client (self w') = _client (self w)
    /\ _data_converter (self w') = _data_converter (self w)
    /\ logger w' = logger w.
Proof.
  intros Hname Hrole Htype Hrid.
  eexists. split; [ now apply log_accepted with (rid := rid) | ].
  cbn [self logger]. split; [ intros k; apply queue_of_logged | ].
  destruct w as [m l]. cbn [self logger].
  destruct m as [mt mi mv en tg rec fr fc sc asc cols conv cl].
  unfold logged. cbn [_is_first_record _is_first_column].
  destruct fr, fc; repeat split.
Qed.

Lemma log_accepted_appends_witness :
  exists w',
    log example_ambient (PyInt 30) "age" "feature" "numerical"
        (snd (start_record (fresh_world None))) = (Ok tt, w')
    /\ queue_of (_columns (self w')) "age" = [PyInt 30]
    /\ queue_of (_columns (self w')) "timestamp" = [PyFloat 1700000000.25%float]
    /\ _schema (self w') = [mkColumn "age" "feature" "numerical"].
Proof.
  destruct (@log_accepted_appends example_ambient 7%Z (PyInt 30)
              "age" "feature" "numerical" (snd (start_record (fresh_world None))))
    as (w' & Hlog & Hq & Hs & _); try reflexivity.
  exists w'. split; [ exact Hlog | ].
  rewrite (Hq "age"), (Hq "timestamp"), Hs. repeat split.
Defined.

Lemma logged_flags ctx rid data name role data_type m :
  _is_first_column (logged ctx rid data name role data_type m) = false
  /\ _is_first_record (logged ctx rid data name role data_type m)
     = _is_first_record m.
Proof.
  destruct m as [mt mi mv en tg rec fr fc sc asc cols conv cl].
  unfold logged. cbn [_is_first_record _is_first_column].
  destruct fr, fc; split; reflexivity.
Qed.

(** The instance after a batch of values has been logged for one column. *)
Lemma log_batch_accepted ctx rid name role data_type :
  str_in name PRESERVED_COLUMNS = false ->
  str_in role BENTOML_MONITOR_ROLES = true ->
  str_in data_type BENTOML_MONITOR_TYPES = true ->
  trace_request_id ctx = Some rid ->
  forall data_batch w,
    log_batch ctx data_batch name role data_type w
    = (Ok tt,
       mkWorld (fold_left (fun m d => logged ctx rid d name role data_type m)
                          data_batch (self w))
               (logger w)).
Proof.
  intros Hname Hrole Htype Hrid.
  induction data_batch as [ | d rest IH]; intros w.
  - destruct w; reflexivity.
  - cbn [log_batch fold_left]. unfold Py.bind.
    rewrite (@log_accepted ctx rid d name role data_type w Hname Hrole Htype Hrid).
    rewrite IH. reflexivity.
Qed.

Lemma queue_of_logged_batch ctx rid name role data_type k :
  forall data_batch m,
    queue_of (_columns (fold_left (fun m d => logged ctx rid d name role data_type m)
                                  data_batch m)) k
    = queue_of (_columns m) k
      ++ (if _is_first_column m && truthy data_batch && (COLUMN_TIME =? k)
          then [PyFloat (now_timestamp ctx)] else [])
      ++ (if _is_first_column m && truthy data_batch && (COLUMN_RID =? k)
          then [PyInt rid] else [])
      ++ (if name =? k then data_batch else []).
Proof.
  induction data_batch as [ | d rest IH]; intros m.
  - cbn [fold_left truthy]. rewrite !andb_false_r.
    destruct (name =? k); now rewrite !app_nil_r.
  - cbn [fold_left truthy]. rewrite IH, queue_of_logged.
    destruct (logged_flags ctx rid d name role data_type m) as [-> _].
    rewrite !andb_true_r. cbn [andb].
    destruct (name =? k); rewrite <- ?app_assoc; cbn [app];
      rewrite ?app_nil_r; reflexivity.
Qed.

(** X3. [log_batch] with arguments that pass the checks of [log] returns
    after putting the whole batch, in order, at the end of the queue of its
    column; the timestamp and the request id are stamped once, and only if
    the batch is not empty and opens the record. *)
Theorem log_batch_appends
    (ctx : Ambient) (rid : Z) (data_batch : list DataType)
    (name role data_type : string) (w : World) :
  str_in name PRESERVED_COLUMNS = false ->
  str_in role BENTOML_MONITOR_ROLES = true ->
  str_in data_type BENTOML_MONITOR_TYPES = true ->
  trace_request_id ctx = Some rid ->
  exists w',
    log_batch ctx data_batch name role data_type w = (Ok tt, w')
    /\ (forall k,
          queue_of (_columns (self w')) k
          = queue_of (_columns (self w)) k
            ++ (if _is_first_column (self w) && truthy data_batch
                   && (COLUMN_TIME =? k)
                then [PyFloat (now_timestamp ctx)] else [])
            ++ (if _is_first_column (self w) && truthy data_batch
                   && (COLUMN_RID =? k)
                then [PyInt rid] else [])
            ++ (if name =? k then data_batch else []))
    /\ logger w' = logger w.
Proof.
  intros Hname Hrole Htype Hrid.
  eexists. split; [ now apply log_batch_accepted with (rid := rid) | ].
  cbn [self logger]. split; [ | reflexivity ].
  intros k. apply queue_of_logged_batch.
Qed.

Lemma log_batch_appends_witness :
  exists w',
    log_batch example_ambient [PyInt 1; PyInt 2; PyInt 3]
              "age" "feature" "numerical"
              (snd (start_record (fresh_world None))) = (Ok tt, w')
    /\ queue_of (_columns (self w')) "age" = [PyInt 1; PyInt 2; PyInt 3]
    /\ queue_of (_columns (self w')) "request_id" = [PyInt 7].
Proof.
  destruct (@log_batch_appends example_ambient 7%Z [PyInt 1; PyInt 2; PyInt 3]
              "age" "feature" "numerical" (snd (start_record (fresh_world None))))
    as (w' & Hlog & Hq & _); try reflexivity.
  exists w'. split; [ exact Hlog | ].
  rewrite (Hq "age"), (Hq "request_id"). repeat split.
Defined.

Lemma dict_get_In {V} (d : dict V) k v : dict_get d k = Some v -> In (k, v) d.
Proof.
  induction d as [ | [k0 v0] rest IH]; cbn [dict_get]; [ discriminate | ].
  destruct (String.eqb_spec k0 k) as [-> | Hk]; intros H.
  - injection H as ->. now left.
  - right. now apply IH.
Qed.

Lemma queue_of_In columns k :
  queue_of columns k <> [] -> In (k, queue_of columns k) columns.
Proof.
  unfold queue_of. destruct (dict_get columns k) as [q | ] eqn:E.
  - intros _. now apply dict_get_In.
  - intros H. now contradiction H.
Qed.

(** Two queues of different lengths make the first assertion of
    [export_data] fail. *)
Lemma export_data_assertion_fails w k1 k2 :
  In (k1, queue_of (_columns (self w)) k1) (_columns (self w)) ->
  In (k2, queue_of (_columns (self w)) k2) (_columns (self w)) ->
  List.length (queue_of (_columns (self w)) k1)
  <> List.length (queue_of (_columns (self w)) k2) ->
  export_data w
  = (Err (AssertionError "All columns must have the same length"), w).
Proof.
  intros H1 H2 Hne.
  assert (Hlen : 2 <= List.length (queue_lengths (_columns (self w)))).
  { eapply nodup_two_distinct; [ | | exact Hne ].
    - apply (in_map (fun kv => List.length (snd kv)) _ _ H1).
    - apply (in_map (fun kv => List.length (snd kv)) _ _ H2). }
  unfold export_data, Py.bind, get_self, Py.assert.
  destruct (Nat.eqb_spec (List.length (queue_lengths (_columns (self w)))) 1);
    [ lia | reflexivity ].
Qed.

(** X4. A batch of two values or more that opens a record cannot be
    exported: [log_batch] stamps the timestamp once and buffers every value
    of the batch, so when the queue of the column was as long as the queue
    of the timestamps before, it is longer afterwards, and [export_data]
    fails on its assertion that all queues have the same length. *)
Theorem log_batch_breaks_export
    (ctx : Ambient) (rid : Z) (d1 d2 : DataType) (rest : list DataType)
    (name role data_type : string) (w : World) :
  str_in name PRESERVED_COLUMNS = false ->
  str_in role BENTOML_MONITOR_ROLES = true ->
  str_in data_type BENTOML_MONITOR_TYPES = true ->
  trace_request_id ctx = Some rid ->
  _is_first_column (self w) = true ->
  List.length (queue_of (_columns (self w)) name)
  = List.length (queue_of (_columns (self w)) COLUMN_TIME) ->
  exists w',
    log_batch ctx (d1 :: d2 :: rest) name role data_type w = (Ok tt, w')
    /\ export_data w'
       = (Err (AssertionError "All columns must have the same length"), w').
Proof.
  intros Hname Hrole Htype Hrid Hflag Hlen.
  eexists. split; [ now apply log_batch_accepted with (rid := rid) | ].
  set (m' := fold_left _ _ _).
  assert (Hq : forall k,
             queue_of (_columns m') k
             = queue_of (_columns (self w)) k
               ++ (if COLUMN_TIME =? k then [PyFloat (now_timestamp ctx)] else [])
               ++ (if COLUMN_RID =? k then [PyInt rid] else [])
               ++ (if name =? k then d1 :: d2 :: rest else [])).
  { intros k. unfold m'. rewrite queue_of_logged_batch, Hflag. reflexivity. }
  assert (Hn : (name =? COLUMN_TIME) = false /\ (name =? COLUMN_RID) = false).
  { unfold PRESERVED_COLUMNS, str_in in Hname. cbn [existsb] in Hname.
    rewrite orb_false_r in Hname. now apply orb_false_iff in Hname. }
  destruct Hn as [Hnt Hnr].
  assert (Htime : queue_of (_columns m') COLUMN_TIME
                  = queue_of (_columns (self w)) COLUMN_TIME
                    ++ [PyFloat (now_timestamp ctx)]).
  { rewrite Hq, Hnt. reflexivity. }
  assert (Hcol : queue_of (_columns m') name
                 = queue_of (_columns (self w)) name ++ d1 :: d2 :: rest).
  { rewrite Hq, (String.eqb_sym COLUMN_TIME), (String.eqb_sym COLUMN_RID),
      Hnt, Hnr, String.eqb_refl. reflexivity. }
  apply export_data_assertion_fails with (k1 := name) (k2 := COLUMN_TIME);
    cbn [self].
  - apply queue_of_In. rewrite Hcol. now destruct (queue_of _ name).
  - apply queue_of_In. rewrite Htime. now destruct (queue_of _ COLUMN_TIME).
  - rewrite Hcol, Htime, !length_app. cbn [List.length]. lia.
Qed.

Lemma log_batch_breaks_export_witness :
  exists w',
    log_batch example_ambient [PyInt 1; PyInt 2] "age" "feature" "numerical"
              (snd (start_record (fresh_world None))) = (Ok tt, w')
    /\ export_data w'
       = (Err (AssertionError "All columns must have the same length"), w').
Proof.
  apply (@log_batch_breaks_export example_ambient 7%Z (PyInt 1) (PyInt 2) []
           "age" "feature" "numerical" (snd (start_record (fresh_world None))));
    reflexivity.
Defined.

(** ** Mapping inference with and without hint *)

Lemma warn_extra_returns warn columns msg l :
  exists ws, warn_extra warn columns msg l = (Ok tt, l ++ ws).
Proof.
  unfold warn_extra. destruct (warn && (1 <? List.length columns)%nat).
  - eexists. reflexivity.
  - exists []. now rewrite app_nil_r.
Qed.

Lemma is_valid_scored_classification_form_value fields warn l :
  exists ws,
    _is_valid_scored_classification_form fields warn l
    = (Ok (has_scored_side fields), l ++ ws)
    /\ (warn = false -> ws = []).
Proof.
  unfold _is_valid_scored_classification_form, has_scored_side, Py.bind, Py.ret.
  destruct (truthy (prediction_label_columns fields)
            && truthy (prediction_score_columns fields)).
  - destruct (warn_extra_returns warn (prediction_label_columns fields)
                msg_single_prediction_label l) as (ws1 & H1).
    destruct (warn_extra_returns warn (prediction_score_columns fields)
                msg_single_prediction_score (l ++ ws1)) as (ws2 & H2).
    exists (ws1 ++ ws2). rewrite H1, H2, app_assoc. split; [ reflexivity | ].
    intros ->. cbn in H1, H2. injection H1 as H1. injection H2 as H2.
    rewrite <- (app_nil_r l) in H1 at 1. apply app_inv_head in H1. subst ws1.
    rewrite <- (app_nil_r (l ++ [])) in H2 at 1. apply app_inv_head in H2.
    now subst ws2.
  - cbn [orb].
    destruct (truthy (actual_label_columns fields)
              && truthy (actual_score_columns fields)).
    + destruct (warn_extra_returns warn (actual_label_columns fields)
                  msg_single_actual_label l) as (ws1 & H1).
      destruct (warn_extra_returns warn (actual_score_columns fields)
                  msg_single_actual_score (l ++ ws1)) as (ws2 & H2).
      exists (ws1 ++ ws2). rewrite H1, H2, app_assoc. split; [ reflexivity | ].
      intros ->. cbn in H1, H2. injection H1 as H1. injection H2 as H2.
      rewrite <- (app_nil_r l) in H1 at 1. apply app_inv_head in H1. subst ws1.
      rewrite <- (app_nil_r (l ++ [])) in H2 at 1. apply app_inv_head in H2.
      now subst ws2.
    + exists []. rewrite app_nil_r. split; reflexivity.
Qed.

Lemma is_valid_classification_form_value fields warn l :
  exists ws,
    _is_valid_classification_form fields warn l
    = (Ok ((truthy (prediction_label_columns fields)
            && negb (truthy (prediction_score_columns fields)))
           || (truthy (actual_label_columns fields)
               && negb (truthy (actual_score_columns fields)))),
       l ++ ws).
Proof.
  unfold _is_valid_classification_form, Py.bind, Py.ret.
  destruct (truthy (prediction_label_columns fields)
            && negb (truthy (prediction_score_columns fields))).
  - destruct (warn_extra_returns warn (prediction_label_columns fields)
                msg_single_prediction_label l) as (ws1 & ->).
    now exists ws1.
  - cbn [orb].
    destruct (truthy (actual_label_columns fields)
              && negb (truthy (actual_score_columns fields))).
    + destruct (warn_extra_returns warn (actual_label_columns fields)
                  msg_single_actual_label l) as (ws1 & ->).
      now exists ws1.
    + exists []. now rewrite app_nil_r.
Qed.

Lemma classification_without_scored_side fields :
  has_scored_side fields = false ->
  (truthy (prediction_label_columns fields)
   && negb (truthy (prediction_score_columns fields)))
  || (truthy (actual_label_columns fields)
      && negb (truthy (actual_score_columns fields)))
  = has_label fields.
Proof.
  unfold has_scored_side, has_label.
  destruct (truthy (prediction_label_columns fields)),
    (truthy (prediction_score_columns fields)),
    (truthy (actual_label_columns fields)),
    (truthy (actual_score_columns fields)); cbn; congruence.
Qed.

(** The inference under the SCORE_CATEGORICAL hint, warnings apart. *)
Lemma infer_classification_hint_value fields l :
  exists ws,
    _infer_mapping fields (Some SCORE_CATEGORICAL) l
    = (if has_scored_side fields then Ok SCORED_CLASSIFICATION
       else if has_label fields then Ok CLASSIFICATION
       else Err (ValueError "Not a valid arize classification schema"),
       l ++ ws).
Proof.
  unfold _infer_mapping. cbn [ModelTypes_eqb]. unfold Py.bind.
  destruct (is_valid_scored_classification_form_value fields true l)
    as (ws1 & -> & _).
  destruct (has_scored_side fields) eqn:Hs; [ now exists ws1 | ].
  destruct (is_valid_classification_form_value fields true (l ++ ws1))
    as (ws2 & ->).
  rewrite (classification_without_scored_side _ Hs), <- app_assoc.
  exists (ws1 ++ ws2). now destruct (has_label fields).
Qed.

(** X5. With the SCORE_CATEGORICAL hint the inference depends on the label
    columns alone: it fails, with the [ValueError] of a schema that is not
    a classification, exactly when there is no label column at all,
    predicted or actual; otherwise it returns SCORED_CLASSIFICATION when
    one side has both a label and a score, and CLASSIFICATION when none
    has. The logger only gets warnings added. *)
Theorem infer_classification_hint (fields : _FieldStats) (l : Logger) :
  exists ws,
    _infer_mapping fields (Some SCORE_CATEGORICAL) l
    = (if has_scored_side fields then Ok SCORED_CLASSIFICATION
       else if has_label fields then Ok CLASSIFICATION
       else Err (ValueError "Not a valid arize classification schema"),
       l ++ ws).
Proof.
  destruct (infer_classification_hint_value fields l) as (ws & Hrun).
  exists ws. rewrite Hrun.
  destruct (has_scored_side fields), (has_label fields); reflexivity.
Qed.

(** The classification test as run without hint, once the scored test has
    failed. *)
Lemma infer_label_only_is_classification_aux fields l :
  has_label fields = true ->
  has_scored_side fields = false ->
  (plain <- _is_valid_classification_form fields false ;;
   if plain then Py.ret CLASSIFICATION else
   regr <- _is_valid_regression_form fields false ;;
   if regr then Py.ret REGRESSION else
   Py.raise (ValueError msg_no_valid_mapping)) l
  = (Ok CLASSIFICATION, l).
Proof.
  intros Hlabel Hs.
  assert (Hc : _is_valid_classification_form fields false l = (Ok true, l)).
  { rewrite <- Hlabel, <- (classification_without_scored_side _ Hs).
    unfold _is_valid_classification_form, Py.bind, Py.ret.
    destruct (truthy (prediction_label_columns fields)
              && negb (truthy (prediction_score_columns fields)));
      [ reflexivity | ].
    destruct (truthy (actual_label_columns fields)
              && negb (truthy (actual_score_columns fields))); reflexivity. }
  unfold Py.bind at 1. now rewrite Hc.
Qed.

(** X6. With no hint, a schema with a label column, predicted or actual,
    and no side holding both a label and a score, is inferred as
    CLASSIFICATION, and nothing is logged. *)
Theorem infer_label_only_is_classification (fields : _FieldStats) (l : Logger) :
  has_label fields = true ->
  has_scored_side fields = false ->
  _infer_mapping fields None l = (Ok CLASSIFICATION, l).
Proof.
  intros Hlabel Hs. unfold _infer_mapping. unfold Py.bind at 1.
  destruct (is_valid_scored_classification_form_value fields false l)
    as (ws1 & -> & Hws1).
  rewrite (Hws1 eq_refl), app_nil_r, Hs.
  now apply infer_label_only_is_classification_aux.
Qed.

Lemma infer_label_only_witness :
  _infer_mapping scenario_A_fields None [] = (Ok CLASSIFICATION, []).
Proof.
  apply (@infer_label_only_is_classification scenario_A_fields []); reflexivity.
Defined.

(** X7. A monitor built with the NUMERIC hint never gets past its first
    record: whatever was logged, the first [stop_record] raises the
    [AttributeError] of the regression test, nothing is exported, and the
    instance is left as it was, still at its first record. *)
Theorem stop_record_numeric_hint_raises (ctx : Ambient) (w : World) :
  _is_first_record (self w) = true ->
  model_type (self w) = Some NUMERIC ->
  exists ws,
    stop_record ctx w
    = (Err (AttributeError "_FieldStats" "is_filled"),
       mkWorld (self w) (logger w ++ ws)).
Proof.
  intros Hfirst Hhint.
  destruct (stat_columns_spec (_schema (self w)) new_FieldStats (logger w))
    as (ws & Hstat & _).
  exists ws.
  unfold stop_record, export_schema, Py.bind at 1, get_self.
  rewrite Hfirst.
  unfold Py.bind, get_self, with_logger, _stat_fields.
  rewrite Hstat, Hhint. reflexivity.
Qed.

Lemma stop_record_numeric_hint_witness :
  exists ws,
    stop_record example_ambient (fresh_world (Some NUMERIC))
    = (Err (AttributeError "_FieldStats" "is_filled"),
       mkWorld (self (fresh_world (Some NUMERIC)))
               (logger (fresh_world (Some NUMERIC)) ++ ws)).
Proof.
  apply (@stop_record_numeric_hint_raises example_ambient (fresh_world (Some NUMERIC)));
    reflexivity.
Defined.

(** ** No column lost, none counted twice *)

Lemma classify_spec_count schema :
  List.length (all_columns (classify_spec schema))
  + List.length (bucket_spec Dropped schema)
  = List.length schema.
Proof.
  unfold all_columns, classify_spec. cbn.
  induction schema as [ | c schema IH]; [ reflexivity | ].
  rewrite !(bucket_spec_cons _ c schema). rewrite !length_app in *.
  unfold bucket_spec at 1 3 5 7 9 11 13. cbn [filter map].
  destruct (route_column c); cbn [Bucket_eqb map List.length]; lia.
Qed.

Lemma bucket_spec_names b schema n :
  In n (bucket_spec b schema) -> In n (map column_name schema).
Proof.
  unfold bucket_spec. intros H. apply in_map_iff in H.
  destruct H as (c & <- & Hc). apply filter_In in Hc. apply in_map, Hc.
Qed.

(** X8. [_stat_fields] loses no column and counts none twice: the names in
    its six buckets and the warnings it logs add up to the length of the
    schema, and every name in a bucket is the name of a column of the
    schema. *)
Theorem stat_fields_partition (schema : list Column) (l : Logger) :
  exists fields ws,
    _stat_fields schema l = (Ok fields, l ++ ws)
    /\ List.length (all_columns fields) + List.length ws = List.length schema
    /\ incl (all_columns fields) (map column_name schema).
Proof.
  destruct (stat_columns_spec schema new_FieldStats l) as (ws & H & Hlen).
  exists (classify_spec schema), ws.
  unfold _stat_fields. rewrite H, fields_app_nil_l.
  split; [ reflexivity | ]. split.
  - rewrite Hlen. apply classify_spec_count.
  - intros n Hn. unfold all_columns, classify_spec in Hn. cbn in Hn.
    repeat (apply in_app_or in Hn; destruct Hn as [Hn | Hn]);
      eapply bucket_spec_names; exact Hn.
Qed.

(** ** What a successful schema export leaves behind *)

(** Without hint the inference is decided by the label columns, the
    regression test being reached only to raise. *)
Lemma infer_no_hint_value fields l :
  _infer_mapping fields None l
  = (if has_scored_side fields then Ok SCORED_CLASSIFICATION
     else if has_label fields then Ok CLASSIFICATION
     else Err (AttributeError "_FieldStats" "is_filled"),
     l).
Proof.
  unfold _infer_mapping. unfold Py.bind at 1.
  destruct (is_valid_scored_classification_form_value fields false l)
    as (ws1 & -> & Hws1).
  rewrite (Hws1 eq_refl), app_nil_r.
  destruct (has_scored_side fields) eqn:Hs; [ reflexivity | ].
  destruct (has_label fields) eqn:Hl.
  - now apply infer_label_only_is_classification_aux.
  - rewrite <- (classification_without_scored_side _ Hs) in Hl.
    unfold _is_valid_classification_form, Py.bind, Py.ret.
    apply orb_false_iff in Hl. destruct Hl as [-> ->]. reflexivity.
Qed.

Lemma infer_mapping_result fields hint l mapping l' :
  _infer_mapping fields hint l = (Ok mapping, l') ->
  mapping <> RANKING
  /\ (hint = None -> _mapping_to_model_type mapping = Ok SCORE_CATEGORICAL).
Proof.
  destruct hint as [[ | | other] | ].
  - unfold _infer_mapping. cbn [ModelTypes_eqb]. unfold Py.bind.
    rewrite is_valid_regression_form_raises. discriminate.
  - destruct (infer_classification_hint_value fields l) as (ws & ->).
    destruct (has_scored_side fields); [ | destruct (has_label fields) ];
      intros H; inversion H; split; discriminate.
  - cbn. intros H. inversion H. split; discriminate.
  - rewrite infer_no_hint_value.
    destruct (has_scored_side fields); [ | destruct (has_label fields) ];
      intros H; inversion H; split; try discriminate; reflexivity.
Qed.

(** X9. When [export_schema] returns, the monitor is set up for the drain:
    the converter holds the buckets of the schema and a mapping that
    [_map_data] knows; the client is a new one that has received nothing;
    the model type is the hint, or SCORE_CATEGORICAL when there was none;
    the environment is the given one, or PRODUCTION; the model id and
    version come from the component context when neither was given. The
    schema, the queues and the two flags are as before. *)
Theorem export_schema_sets_up (ctx : Ambient) (w w1 : World) :
  export_schema ctx w = (Ok tt, w1) ->
  (exists mapping,
      _data_converter (self w1) = Some (classify_spec (_schema (self w)), mapping)
      /\ mapping <> RANKING)
  /\ _client (self w1) = Some []
  /\ model_type (self w1)
     = Some (match model_type (self w) with
             | Some hint => hint
             | None => SCORE_CATEGORICAL
             end)
  /\ environment (self w1)
     = Some (match environment (self w) with
             | Some e => e
             | None => PRODUCTION
             end)
  /\ (model_id (self w1), model_version (self w1))
     = match model_version (self w), model_id (self w) with
       | None, None => (bento_name ctx, bento_version ctx)
       | _, _ => (model_id (self w), model_version (self w))
       end
  /\ _schema (self w1) = _schema (self w)
  /\ _columns (self w1) = _columns (self w)
  /\ _is_first_record (self w1) = _is_first_record (self w)
  /\ _is_first_column (self w1) = _is_first_column (self w).
Proof.
  unfold export_schema, Py.bind, get_self, with_logger, update_self, Py.ret,
    Py.lift_res, _stat_fields.
  destruct (stat_columns_spec (_schema (self w)) new_FieldStats (logger w))
    as (ws & -> & _).
  rewrite fields_app_nil_l. cbn [self logger].
  destruct (_infer_mapping (classify_spec (_schema (self w)))
              (model_type (self w)) (logger w ++ ws))
    as [[mapping | e] l2] eqn:Hinfer; [ | discriminate ].
  apply infer_mapping_result in Hinfer. destruct Hinfer as [Hrank Hnone].
  cbn [self logger].
  destruct w as [[mt mi mv en tg rec fr fc sc asc cols conv cl] l].
  cbn [self logger model_type model_id model_version environment] in *.
  destruct mt as [hint | ]; [ | rewrite (Hnone eq_refl) ];
    destruct mv, mi, en; intros H; injection H as <-; cbn;
    (split; [ exists mapping; split; [ reflexivity | exact Hrank ] | ]);
    repeat split.
Qed.

Lemma export_schema_sets_up_witness :
  let w := snd (one_label_logs (fresh_world None)) in
  let w1 := snd (export_schema example_ambient w) in
  export_schema example_ambient w = (Ok tt, w1)
  /\ _client (self w1) = Some []
  /\ model_type (self w1) = Some SCORE_CATEGORICAL
  /\ environment (self w1) = Some PRODUCTION.
Proof.
  intros w w1.
  assert (Hrun : export_schema example_ambient w = (Ok tt, w1))
    by (vm_compute; reflexivity).
  destruct (@export_schema_sets_up example_ambient w w1 Hrun)
    as (_ & Hclient & Hmt & Henv & _).
  split; [ exact Hrun | ]. split; [ exact Hclient | ].
  split; [ exact Hmt | exact Henv ].
Defined.

(** ** Conversion of a record *)

Lemma dict_set_get {V} (d : dict V) k v k' :
  dict_get (dict_set d k v) k' = if k =? k' then Some v else dict_get d k'.
Proof.
  induction d as [ | [k0 v0] rest IH]; cbn [dict_set dict_get].
  - reflexivity.
  - destruct (String.eqb_spec k0 k) as [-> | Hk0]; cbn [dict_get].
    + destruct (String.eqb_spec k k'); reflexivity.
    + rewrite IH. destruct (String.eqb_spec k0 k') as [-> | Hk0'];
        [ | reflexivity ].
      destruct (String.eqb_spec k k'); [ congruence | reflexivity ].
Qed.

Lemma dict_comprehension_get {V} (f : DataType -> V) record : forall columns acc d,
  dict_comprehension f record columns acc = Ok d ->
  forall c,
    dict_get d c
    = if str_in c columns then option_map f (dict_get record c)
      else dict_get acc c.
Proof.
  induction columns as [ | c0 rest IH]; intros acc d H c.
  - injection H as <-. reflexivity.
  - cbn [dict_comprehension] in H. unfold res_bind, dict_item in H.
    destruct (dict_get record c0) as [v | ] eqn:Hv; [ | discriminate ].
    rewrite (IH _ _ H c), dict_set_get.
    unfold str_in. cbn [existsb]. fold (str_in c rest).
    rewrite (String.eqb_sym c c0).
    destruct (String.eqb_spec c0 c) as [<- | Hc].
    + rewrite Hv. now destruct (str_in c0 rest).
    + reflexivity.
Qed.

Lemma dict_comprehension_total {V} (f : DataType -> V) record : forall columns acc,
  (forall c, In c columns -> dict_get record c <> None) ->
  exists d, dict_comprehension f record columns acc = Ok d.
Proof.
  induction columns as [ | c0 rest IH]; intros acc H.
  - now exists acc.
  - cbn [dict_comprehension]. unfold res_bind, dict_item.
    destruct (dict_get record c0) as [v | ] eqn:Hv.
    + apply IH. intros c Hc. apply H. now right.
    + exfalso. apply (H c0); [ now left | exact Hv ].
Qed.

(** X10. The dictionary built by [{c: f(record[c]) for c in columns}] binds
    exactly the names in [columns], each to the image of the value the
    record holds for it. *)
Theorem dict_comprehension_lookup {V : Type} (f : DataType -> V)
    (record : dict DataType) (columns : list string) (d : dict V) :
  dict_comprehension f record columns [] = Ok d ->
  forall c,
    dict_get d c
    = if str_in c columns then option_map f (dict_get record c) else None.
Proof.
  intros H c. now rewrite (dict_comprehension_get _ _ _ _ H c).
Qed.

Lemma dict_comprehension_lookup_witness :
  dict_get [("age", mkEmbedding (PyInt 30))] "age"
  = Some (mkEmbedding (PyInt 30))
  /\ dict_get [("age", mkEmbedding (PyInt 30))] "label" = None.
Proof.
  split.
  - apply (@dict_comprehension_lookup Embedding mkEmbedding scenario_B_record
             ["age"] [("age", mkEmbedding (PyInt 30))] eq_refl "age").
  - apply (@dict_comprehension_lookup Embedding mkEmbedding scenario_B_record
             ["age"] [("age", mkEmbedding (PyInt 30))] eq_refl "label").
Defined.

Lemma map_data_value record fields mapping l :
  fst (_map_data record fields mapping l) = map_data_res record fields mapping.
Proof.
  unfold _map_data, map_data_res, Py.bind, Py.lift_res, Py.ret, res_bind,
    warning, Py.modify.
  destruct mapping; cbv beta iota;
    (destruct (map_labels record fields _); [ | reflexivity ]);
    (destruct (dict_comprehension (fun v => v) record _ []); [ | reflexivity ]);
    (destruct (dict_comprehension mkEmbedding record _ []); reflexivity).
Qed.

Lemma first_item_cases record bucket :
  (forall c, In c bucket -> dict_get record c <> None) ->
  first_item record bucket
  = match bucket with
    | [] => Err (IndexError "list index out of range")
    | c :: _ => match dict_get record c with
                | Some v => Ok v
                | None => Err (KeyError c)
                end
    end
  /\ (truthy bucket = true -> exists v, first_item record bucket = Ok v).
Proof.
  intros H. destruct bucket as [ | c rest]; split; try reflexivity.
  - discriminate.
  - intros _. unfold first_item, list_first, res_bind, dict_item.
    destruct (dict_get record c) as [v | ] eqn:Hv; [ now exists v | ].
    exfalso. apply (H c); [ now left | exact Hv ].
Qed.

Ltac first_item_step record bucket Hrec :=
  let Hin := fresh "Hin" in
  let Hcase := fresh "Hcase" in
  let Hok := fresh "Hok" in
  assert (Hin : forall c, In c bucket -> dict_get record c <> None)
    by (intros c Hc; apply Hrec; unfold all_columns;
        repeat rewrite in_app_iff; repeat rewrite in_app_iff in Hc; tauto);
  destruct (first_item_cases record bucket Hin) as [Hcase Hok];
  destruct bucket as [ | ? ?] eqn:?;
  [ rewrite Hcase; cbn [truthy forallb andb]
  | destruct (Hok eq_refl) as (? & ->); cbn [truthy forallb andb] ].

(** X11. On a record that holds every column of the buckets, [_map_data]
    returns exactly when none of the buckets it indexes at 0 is empty -
    both labels and both scores for SCORED_CLASSIFICATION, both labels for
    CLASSIFICATION, a score or a label on each side for REGRESSION - and
    raises [IndexError] otherwise. *)
Theorem map_data_index_error
    (record : dict DataType) (fields : _FieldStats) (mapping : Mapping)
    (l : Logger) :
  (forall c, In c (all_columns fields) -> dict_get record c <> None) ->
  if forallb truthy (indexed_buckets fields mapping)
  then exists infos, fst (_map_data record fields mapping l) = Ok infos
  else fst (_map_data record fields mapping l)
       = Err (IndexError "list index out of range").
Proof.
  intros Hrec. rewrite map_data_value. unfold map_data_res.
  assert (Hfe : exists d, dict_comprehension (fun v => v) record
                            (feature_columns fields) [] = Ok d).
  { apply dict_comprehension_total. intros c Hc. apply Hrec.
    unfold all_columns. repeat rewrite in_app_iff. tauto. }
  assert (Hem : exists d, dict_comprehension mkEmbedding record
                            (embedding_feature_columns fields) [] = Ok d).
  { apply dict_comprehension_total. intros c Hc. apply Hrec.
    unfold all_columns. repeat rewrite in_app_iff. tauto. }
  destruct Hfe as (fe & Hfe), Hem as (em & Hem).
  destruct mapping; unfold indexed_buckets, map_labels, res_bind.
  - first_item_step record (prediction_label_columns fields) Hrec;
      [ reflexivity | ].
    first_item_step record (prediction_score_columns fields) Hrec;
      [ reflexivity | ].
    first_item_step record (actual_label_columns fields) Hrec;
      [ reflexivity | ].
    first_item_step record (actual_score_columns fields) Hrec;
      [ reflexivity | ].
    rewrite Hfe, Hem. eexists. reflexivity.
  - first_item_step record (prediction_label_columns fields) Hrec;
      [ reflexivity | ].
    first_item_step record (actual_label_columns fields) Hrec;
      [ reflexivity | ].
    rewrite Hfe, Hem. eexists. reflexivity.
  - first_item_step record
      (prediction_score_columns fields ++ prediction_label_columns fields) Hrec;
      [ reflexivity | ].
    first_item_step record
      (actual_score_columns fields ++ actual_label_columns fields) Hrec;
      [ reflexivity | ].
    rewrite Hfe, Hem. eexists. reflexivity.
  - first_item_step record (prediction_score_columns fields) Hrec;
      [ reflexivity | ].
    first_item_step record (actual_score_columns fields) Hrec;
      [ reflexivity | ].
    rewrite Hfe, Hem. eexists. reflexivity.
Qed.

Lemma map_data_index_error_witness :
  fst (_map_data scenario_B_record scenario_B_fields SCORED_CLASSIFICATION [])
  = Err (IndexError "list index out of range")
  /\ exists infos,
       fst (_map_data scenario_B_record scenario_A_fields CLASSIFICATION [])
       = Ok infos.
Proof.
  split.
  - refine (@map_data_index_error scenario_B_record scenario_B_fields
              SCORED_CLASSIFICATION [] _).
    intros c Hc. cbn in Hc.
    repeat (destruct Hc as [<- | Hc]; [ discriminate | ]). contradiction.
  - refine (@map_data_index_error scenario_B_record scenario_A_fields
              CLASSIFICATION [] _).
    intros c Hc. cbn in Hc.
    repeat (destruct Hc as [<- | Hc]; [ discriminate | ]). contradiction.
Defined.

(** ** What the drain does in every case *)

Lemma same_settings_refl m : same_settings m m.
Proof. repeat split. Qed.

Lemma same_settings_trans m1 m2 m3 :
  same_settings m1 m2 -> same_settings m2 m3 -> same_settings m1 m3.
Proof.
  unfold same_settings. intros H12 H23.
  repeat match goal with H : _ /\ _ |- _ => destruct H end.
  repeat split; congruence.
Qed.

Lemma drained_from_refl w : drained_from w w.
Proof.
  repeat split. exists []. rewrite app_nil_r. split; [ reflexivity | cbn; lia ].
Qed.

Lemma drained_from_trans w1 w2 w3 :
  drained_from w1 w2 -> drained_from w2 w3 -> drained_from w1 w3.
Proof.
  intros (Hs12 & Hf12 & Hk12 & new12 & Hr12 & Hb12)
         (Hs23 & Hf23 & Hk23 & new23 & Hr23 & Hb23).
  split; [ eapply same_settings_trans; eassumption | ].
  split; [ congruence | ]. split; [ congruence | ].
  exists (new12 ++ new23). rewrite Hr23, Hr12, app_assoc, length_app.
  split; [ reflexivity | lia ].
Qed.

Lemma pop_columns_any columns : forall r columns',
  pop_columns columns = (r, columns') ->
  keys columns' = keys columns /\ buffered columns' <= buffered columns.
Proof.
  unfold keys.
  induction columns as [ | [k q] rest IH]; intros r columns' H.
  - injection H as <- <-. split; [ reflexivity | lia ].
  - cbn [pop_columns] in H. destruct q as [ | v q'].
    + injection H as <- <-. split; [ reflexivity | lia ].
    + destruct (pop_columns rest) as [r' rest'] eqn:E.
      destruct (IH r' rest' eq_refl) as [Hk Hb].
      injection H as <- <-. cbn [map fst]. rewrite Hk, !buffered_cons.
      cbn [List.length]. split; [ reflexivity | lia ].
Qed.

Ltac run_step :=
  match goal with
  | |- (_, _) = (_, _) -> _ =>
      let H := fresh "Hrun" in intros H; injection H as <- <-
  end.

Ltac norm_state :=
  unfold set_columns, set_client;
  cbn [self logger _columns _client _is_first_column model_type model_id
       model_version environment model_tags _is_recording _is_first_record
       _schema _arize_schema _data_converter List.length app].

(** One iteration of the loop, whatever its outcome. *)
Lemma export_row_drained_from mid mty env w r w' :
  export_row mid mty env w = (r, w') -> drained_from w w'.
Proof.
  unfold export_row, Py.bind at 1, popleft_all.
  destruct (pop_columns (_columns (self w))) as [[record | e] columns'] eqn:Hpop.
  2: { pose proof (pop_columns_any _ Hpop) as [Hk Hb].
       run_step. unfold drained_from, same_settings, rows_sent. norm_state.
       repeat split; try assumption.
       exists []. rewrite app_nil_r. split; [ reflexivity | norm_state; lia ]. }
  pose proof (pop_columns_any _ Hpop) as [Hk _].
  apply pop_columns_ok in Hpop. destruct Hpop as [Hlen Hbuf].
  assert (Hstay : drained_from w
            (mkWorld (set_columns columns' (self w)) (logger w))).
  { unfold drained_from, same_settings, rows_sent. norm_state.
    repeat split; try assumption.
    exists []. rewrite app_nil_r. split; [ reflexivity | norm_state; lia ]. }
  assert (Hlog : forall l,
             drained_from w (mkWorld (set_columns columns' (self w)) l)).
  { intros l. exact Hstay. }
  unfold Py.bind, Py.lift_res, Py.assert, get_self, getattr, with_logger,
    client_log, update_self, Py.ret, Py.raise.
  destruct (dict_item record COLUMN_TIME) as [timestamp | e] eqn:Ht;
    [ | run_step; exact Hstay ].
  assert (Hne : 0 < List.length record).
  { destruct record; [ discriminate | simpl; lia ]. }
  destruct (is_float timestamp); [ | run_step; exact Hstay ].
  destruct (dict_item record COLUMN_RID) as [rid | e];
    [ | run_step; exact Hstay ].
  destruct (is_int rid); [ | run_step; exact Hstay ].
  cbn [self logger].
  destruct (_data_converter (set_columns columns' (self w))) as [conv | ];
    [ | run_step; exact Hstay ].
  cbn [self logger].
  destruct (_map_data record (fst conv) (snd conv) (logger w))
    as [[infos | e] l'];
    [ | run_step; apply Hlog ].
  destruct (_client (set_columns columns' (self w))) as [rows | ] eqn:Hclient;
    [ | run_step; apply Hlog ].
  cbn [self logger].
  destruct (match timestamp with
            | PyFloat x => int_of_float x
            | _ => Err (AssertionError "")
            end) as [ts | e];
    [ | run_step; apply Hlog ].
  run_step. unfold set_columns in Hclient. cbn [_client] in Hclient.
  unfold drained_from, same_settings, rows_sent. norm_state. rewrite Hclient.
  repeat split; try assumption.
  eexists [_]. split; [ reflexivity | norm_state; lia ].
Qed.

Lemma export_loop_drained_from mid mty env : forall fuel w r w',
  export_loop fuel mid mty env w = Some (r, w') -> drained_from w w'.
Proof.
  induction fuel as [ | fuel IH]; intros w r w' H; [ discriminate | ].
  cbn [export_loop] in H.
  destruct (export_row mid mty env w) as [[[] | e] w1] eqn:E;
    apply export_row_drained_from in E.
  - eapply drained_from_trans; [ exact E | eapply IH; exact H ].
  - destruct (is_IndexError e); injection H as <- <-; exact E.
Qed.

Lemma export_data_drained_from w r w' :
  export_data w = (r, w') -> drained_from w w'.
Proof.
  unfold export_data, Py.bind, get_self, Py.assert, Py.ret, Py.raise.
  destruct (List.length (queue_lengths (_columns (self w))) =? 1)%nat;
    [ | run_step; apply drained_from_refl ].
  destruct (model_id (self w)) as [mid | ];
    [ | run_step; apply drained_from_refl ].
  destruct (model_type (self w)) as [mty | ];
    [ | run_step; apply drained_from_refl ].
  destruct (environment (self w)) as [env | ];
    [ | run_step; apply drained_from_refl ].
  destruct (export_loop (S (buffered (_columns (self w)))) mid mty env w)
    as [[r1 w1] | ] eqn:E.
  - run_step. eapply export_loop_drained_from; exact E.
  - run_step. apply drained_from_refl.
Qed.

Lemma export_loop_more_fuel mid mty env : forall fuel w r,
  export_loop fuel mid mty env w = Some r ->
  forall fuel', fuel <= fuel' -> export_loop fuel' mid mty env w = Some r.
Proof.
  induction fuel as [ | fuel IH]; intros w r H fuel' Hle; [ discriminate | ].
  destruct fuel' as [ | fuel']; [ lia | ].
  cbn [export_loop] in *.
  destruct (export_row mid mty env w) as [[[] | e] w1]; [ | exact H ].
  apply IH with (fuel' := fuel') in H; [ exact H | lia ].
Qed.

(** X12. The loop of [export_data] always ends, within one iteration more
    than there are buffered values: every iteration that does not leave
    the loop takes a value from every queue. A larger bound on the
    iterations gives the same outcome. *)
Theorem export_loop_ends
    (mid : string) (mty : ModelTypes) (env : Environments)
    (w : World) (fuel : nat) :
  buffered (_columns (self w)) < fuel ->
  exists r,
    export_loop (S (buffered (_columns (self w)))) mid mty env w = Some r
    /\ export_loop fuel mid mty env w = Some r.
Proof.
  intros Hfuel.
  destruct (@export_loop_terminates mid mty env
              (S (buffered (_columns (self w)))) w) as (r & Hr); [ lia | ].
  exists r. split; [ exact Hr | ].
  apply export_loop_more_fuel with (fuel := S (buffered (_columns (self w))));
    [ exact Hr | lia ].
Qed.

Lemma export_loop_ends_witness :
  exists r,
    export_loop (S (buffered (_columns (self two_records_world))))
                "bento" SCORE_CATEGORICAL PRODUCTION two_records_world = Some r
    /\ export_loop 100 "bento" SCORE_CATEGORICAL PRODUCTION two_records_world
       = Some r.
Proof.
  apply (@export_loop_ends "bento" SCORE_CATEGORICAL PRODUCTION
           two_records_world 100).
  cbn. lia.
Defined.

(** X13. Whatever its outcome, [export_data] only adds rows at the end of
    those the client has received, and takes at least one buffered value
    out of the queues for each row it adds; it creates and removes no
    queue and changes neither the schema, the converter, the model options
    nor the two flags. *)
Theorem export_data_only_drains (w w' : World) (r : Res unit) :
  export_data w = (r, w') ->
  same_settings (self w) (self w')
  /\ _is_first_column (self w') = _is_first_column (self w)
  /\ keys (_columns (self w')) = keys (_columns (self w))
  /\ exists new,
       rows_sent (self w') = rows_sent (self w) ++ new
       /\ List.length new + buffered (_columns (self w'))
          <= buffered (_columns (self w)).
Proof.
  intros H.
  destruct (@export_data_drained_from w r w' H)
    as (Hsettings & Hflag & Hkeys & new & Hrows & Hcount).
  split; [ exact Hsettings | ]. split; [ exact Hflag | ].
  split; [ exact Hkeys | ]. exists new. split; [ exact Hrows | exact Hcount ].
Qed.

Lemma export_data_only_drains_witness :
  let w' := snd (export_data two_records_world) in
  keys (_columns (self w')) = keys (_columns (self two_records_world))
  /\ exists new,
       rows_sent (self w') = rows_sent (self two_records_world) ++ new
       /\ List.length new + buffered (_columns (self w'))
          <= buffered (_columns (self two_records_world)).
Proof.
  intros w'.
  destruct (@export_data_only_drains two_records_world w'
              (fst (export_data two_records_world)))
    as (_ & _ & Hkeys & Hrows).
  - vm_compute. reflexivity.
  - split; [ exact Hkeys | exact Hrows ].
Defined.

(** ** After the first record *)

Lemma log_keeps_settings ctx data name role data_type w r w' :
  _is_first_record (self w) = false ->
  log ctx data name role data_type w = (r, w') ->
  same_settings (self w) (self w') /\ _client (self w') = _client (self w).
Proof.
  intros Hfirst.
  unfold log, append_to_column, Py.bind, Py.assert, Py.raise, Py.ret,
    get_self, update_self.
  destruct (str_in name PRESERVED_COLUMNS);
    [ run_step; split; [ apply same_settings_refl | reflexivity ] | ].
  destruct (str_in role BENTOML_MONITOR_ROLES);
    [ | run_step; split; [ apply same_settings_refl | reflexivity ] ].
  destruct (str_in data_type BENTOML_MONITOR_TYPES);
    [ | run_step; split; [ apply same_settings_refl | reflexivity ] ].
  rewrite Hfirst. cbn [self logger].
  destruct w as [[mt mi mv en tg rec fr fc sc asc cols conv cl] l].
  cbn [self logger _is_first_column _is_first_record] in *. subst fr.
  destruct fc; [ destruct (trace_request_id ctx) | ];
    cbn; run_step; split; repeat split.
Qed.

Lemma log_batch_keeps_settings ctx name role data_type :
  forall data_batch w r w',
    _is_first_record (self w) = false ->
    log_batch ctx data_batch name role data_type w = (r, w') ->
    same_settings (self w) (self w') /\ _client (self w') = _client (self w).
Proof.
  induction data_batch as [ | d rest IH]; intros w r w' Hfirst.
  - cbn [log_batch]. unfold Py.ret. run_step.
    split; [ apply same_settings_refl | reflexivity ].
  - cbn [log_batch]. unfold Py.bind.
    destruct (log ctx d name role data_type w) as [[[] | e] w1] eqn:E;
      apply (log_keeps_settings _ _ _ _ _ _ Hfirst) in E;
      destruct E as [Hs Hc].
    + intros H. apply IH in H.
      * destruct H as [Hs' Hc']. split;
          [ eapply same_settings_trans; eassumption | congruence ].
      * destruct Hs as (_ & _ & _ & _ & _ & _ & Hf & _). congruence.
    + run_step. split; assumption.
Qed.

(** A call on a monitor past its first record. *)
Lemma run_call_after_first_record ctx c w :
  _is_first_record (self w) = false ->
  same_settings (self w) (self (snd (run_call ctx c w)))
  /\ exists new,
       rows_sent (self (snd (run_call ctx c w))) = rows_sent (self w) ++ new.
Proof.
  intros Hfirst.
  destruct c as [ | data name role data_type | batch name role data_type | ];
    cbn [run_call].
  - split; [ repeat split | exists []; now rewrite app_nil_r ].
  - destruct (log ctx data name role data_type w) as [r w'] eqn:E.
    apply (log_keeps_settings _ _ _ _ _ _ Hfirst) in E. destruct E as [Hs Hc].
    cbn [snd]. split; [ exact Hs | ].
    exists []. unfold rows_sent. now rewrite Hc, app_nil_r.
  - destruct (log_batch ctx batch name role data_type w) as [r w'] eqn:E.
    apply (log_batch_keeps_settings _ _ _ _ _ _ Hfirst) in E.
    destruct E as [Hs Hc].
    cbn [snd]. split; [ exact Hs | ].
    exists []. unfold rows_sent. now rewrite Hc, app_nil_r.
  - unfold stop_record, Py.bind, get_self, Py.ret. rewrite Hfirst.
    destruct (_is_first_column (self w)).
    + unfold with_logger, warning, Py.modify. cbn [snd self].
      split; [ apply same_settings_refl | exists []; now rewrite app_nil_r ].
    + destruct (export_data w) as [r w'] eqn:E.
      apply export_data_drained_from in E.
      destruct E as (Hs & _ & _ & new & Hrows & _).
      cbn [snd]. split; [ exact Hs | now exists new ].
Qed.

(** X15. Once the first record is closed, no sequence of calls of
    [start_record], [log], [log_batch] and [stop_record], whether they
    return or raise, changes the schema, the converter with its mapping,
    the model options or the first-record flag; and the rows the client has
    received are never taken back or reordered, later rows coming after
    them. *)
Theorem settings_frozen_after_first_record
    (calls : list (Ambient * Call)) (w : World) :
  _is_first_record (self w) = false ->
  same_settings (self w) (self (run_calls calls w))
  /\ exists new,
       rows_sent (self (run_calls calls w)) = rows_sent (self w) ++ new.
Proof.
  revert w. induction calls as [ | [ctx c] rest IH]; intros w Hfirst.
  - split; [ apply same_settings_refl | exists []; now rewrite app_nil_r ].
  - cbn [run_calls].
    destruct (run_call_after_first_record ctx c w Hfirst) as [Hs (new1 & Hr1)].
    destruct (IH (snd (run_call ctx c w))) as [Hs' (new2 & Hr2)].
    { destruct Hs as (_ & _ & _ & _ & _ & _ & Hf & _). congruence. }
    split; [ eapply same_settings_trans; eassumption | ].
    exists (new1 ++ new2). now rewrite Hr2, Hr1, app_assoc.
Qed.

Lemma settings_frozen_witness :
  let calls :=
    [(example_ambient, CallStartRecord);
     (example_ambient, CallLog (PyInt 52) "age" "feature" "numerical");
     (example_ambient, CallLogBatch [PyStr "no"] "timestamp" "prediction" "categorical");
     (example_ambient, CallStopRecord)] in
  same_settings (self two_records_world) (self (run_calls calls two_records_world))
  /\ exists new,
       rows_sent (self (run_calls calls two_records_world))
       = rows_sent (self two_records_world) ++ new.
Proof.
  intros calls.
  apply (@settings_frozen_after_first_record calls two_records_world).
  reflexivity.
Defined.

(** ** A whole record after the first *)

Lemma columns_append_fill filled k v rest :
  str_in k (keys filled) = false ->
  columns_append (filled ++ (k, []) :: rest) k v = filled ++ (k, [v]) :: rest.
Proof.
  unfold keys, str_in.
  induction filled as [ | [k0 q0] filled IH]; cbn [app map fst existsb columns_append].
  - intros _. now rewrite String.eqb_refl.
  - intros H. apply orb_false_iff in H. destruct H as [Hk0 H].
    rewrite (String.eqb_sym k0 k), Hk0. now rewrite (IH H).
Qed.

Lemma columns_fill : forall entries filled,
  NoDup (map entry_name entries) ->
  (forall e, In e entries -> str_in (entry_name e) (keys filled) = false) ->
  fold_left (fun columns e => columns_append columns (entry_name e) (entry_data e))
            entries (filled ++ empty_queues (map entry_name entries))
  = filled ++ map (fun e => (entry_name e, [entry_data e])) entries.
Proof.
  induction entries as [ | e rest IH]; intros filled Hnd Hfresh.
  - reflexivity.
  - cbn [map empty_queues fold_left].
    rewrite columns_append_fill by (apply Hfresh; now left).
    change (filled ++ (entry_name e, [entry_data e]) :: map (fun k => (k, [])) (map entry_name rest))
      with (filled ++ [(entry_name e, [entry_data e])] ++ empty_queues (map entry_name rest)).
    rewrite app_assoc, IH.
    + now rewrite <- app_assoc.
    + now inversion Hnd.
    + intros e' He'. unfold keys. rewrite map_app. cbn [map fst].
      unfold str_in. rewrite existsb_app. cbn [existsb]. rewrite orb_false_r.
      apply orb_false_iff. split.
      * apply Hfresh. now right.
      * apply String.eqb_neq. intros Heq. inversion Hnd as [ | ? ? Hnotin _].
        apply Hnotin. rewrite <- Heq. now apply in_map.
Qed.

Lemma log_each_accepted ctx rid :
  trace_request_id ctx = Some rid ->
  forall entries w,
    Forall entry_accepted entries ->
    log_each ctx entries w
    = (Ok tt,
       mkWorld (fold_left (fun m e => logged ctx rid (entry_data e) (entry_name e)
                                             (entry_role e) (entry_type e) m)
                          entries (self w))
               (logger w)).
Proof.
  intros Hrid. induction entries as [ | e rest IH]; intros w Hall.
  - destruct w; reflexivity.
  - apply Forall_cons_iff in Hall. destruct Hall as [(Hname & Hrole & Htype) Hall].
    cbn [log_each fold_left]. unfold Py.bind.
    rewrite (@log_accepted ctx rid (entry_data e) (entry_name e) (entry_role e)
               (entry_type e) w Hname Hrole Htype Hrid).
    now rewrite (IH _ Hall).
Qed.

(** After the first value of a later record, [log] only buffers. *)
Lemma fold_logged_later ctx rid : forall entries m,
  _is_first_record m = false ->
  _is_first_column m = false ->
  fold_left (fun m e => logged ctx rid (entry_data e) (entry_name e)
                               (entry_role e) (entry_type e) m) entries m
  = set_columns
      (fold_left (fun columns e =>
                    columns_append columns (entry_name e) (entry_data e))
                 entries (_columns m))
      m.
Proof.
  induction entries as [ | e rest IH]; intros m Hfr Hfc.
  - destruct m; reflexivity.
  - cbn [fold_left]. rewrite IH.
    + unfold logged. rewrite Hfr, Hfc. destruct m; reflexivity.
    + unfold logged. rewrite Hfr, Hfc. destruct m; assumption.
    + unfold logged. rewrite Hfr, Hfc. destruct m; assumption.
Qed.

Lemma pop_singletons (record : dict DataType) :
  pop_columns (map (fun kv => (fst kv, [snd kv])) record)
  = (Ok record, empty_queues (keys record)).
Proof.
  unfold empty_queues, keys.
  induction record as [ | [k v] rest IH]; [ reflexivity | ].
  cbn [map pop_columns fst snd]. now rewrite IH.
Qed.

(** The queues after the entries of a later record have been logged into
    empty queues that have their names in the same order. *)
Lemma logged_record_columns ctx rid e entries m :
  Forall entry_accepted (e :: entries) ->
  NoDup (map entry_name (e :: entries)) ->
  _is_first_record m = false ->
  _is_first_column m = true ->
  _columns m
  = empty_queues (COLUMN_TIME :: COLUMN_RID :: map entry_name (e :: entries)) ->
  fold_left (fun m e => logged ctx rid (entry_data e) (entry_name e)
                               (entry_role e) (entry_type e) m)
            (e :: entries) m
  = set_columns
      (map (fun kv => (fst kv, [snd kv])) (entry_record ctx rid (e :: entries)))
      (set_is_first_column false m).
Proof.
  intros Hall Hnd Hfr Hfc Hcols.
  cbn [fold_left].
  assert (Hfirst :
    logged ctx rid (entry_data e) (entry_name e) (entry_role e) (entry_type e) m
    = set_columns
        (columns_append
           ([(COLUMN_TIME, [PyFloat (now_timestamp ctx)]); (COLUMN_RID, [PyInt rid])]
            ++ empty_queues (map entry_name (e :: entries)))
           (entry_name e) (entry_data e))
        (set_is_first_column false m)).
  { unfold logged. rewrite Hfr, Hfc.
    cbn [_columns set_is_first_column set_columns]. rewrite Hcols.
    destruct m; reflexivity. }
  rewrite Hfirst, fold_logged_later;
    [ | destruct m; exact Hfr | destruct m; reflexivity ].
  cbn [_columns set_columns].
  pose proof (@columns_fill (e :: entries)
                [(COLUMN_TIME, [PyFloat (now_timestamp ctx)]);
                 (COLUMN_RID, [PyInt rid])] Hnd) as Hfill.
  cbn [fold_left] in Hfill. rewrite Hfill.
  - unfold entry_record. cbn [map fst snd app]. rewrite map_map.
    destruct m; reflexivity.
  - intros e' He'. rewrite Forall_forall in Hall.
    destruct (Hall e' He') as (Hname & _). exact Hname.
Qed.

(** X16. Round trip of a record after the first. On a monitor that is set
    up for the drain and whose queues are empty, with the names of the
    record in the order they are logged, [start_record], one accepted [log]
    per distinct column and [stop_record] send exactly one row, the row of
    the record made of the timestamp, the request id and the values logged,
    provided that record converts; the queues are empty again afterwards
    and nothing is logged. *)
Theorem later_record_round_trip
    (ctx : Ambient) (rid : Z) (e : LogEntry) (entries : list LogEntry)
    (w : World) (mid : string) (mty : ModelTypes) (env : Environments)
    (fields : _FieldStats) (mapping : Mapping)
    (rows0 : list ArizeRow) (row : ArizeRow) :
  trace_request_id ctx = Some rid ->
  Forall entry_accepted (e :: entries) ->
  NoDup (map entry_name (e :: entries)) ->
  _is_first_record (self w) = false ->
  _columns (self w)
  = empty_queues (COLUMN_TIME :: COLUMN_RID :: map entry_name (e :: entries)) ->
  _data_converter (self w) = Some (fields, mapping) ->
  mapping <> RANKING ->
  _client (self w) = Some rows0 ->
  model_id (self w) = Some mid ->
  model_type (self w) = Some mty ->
  environment (self w) = Some env ->
  record_row mid mty env (model_version (self w)) (model_tags (self w))
             fields mapping (entry_record ctx rid (e :: entries)) = Ok row ->
  exists w',
    log_record ctx (e :: entries) w = (Ok tt, w')
    /\ _client (self w') = Some (rows0 ++ [row])
    /\ _columns (self w') = _columns (self w)
    /\ logger w' = logger w.
Proof.
  intros Hrid Hall Hnd Hfr Hcols Hconv Hrank Hclient Hmid Hmty Henv Hrow.
  set (record := entry_record ctx rid (e :: entries)) in *.
  set (m1 := set_columns (map (fun kv => (fst kv, [snd kv])) record)
               (set_is_first_column false (self w))).
  set (w1 := mkWorld m1 (logger w)).
  assert (Hlogs : (start_record ;;; log_each ctx (e :: entries)) w = (Ok tt, w1)).
  { unfold Py.bind at 1, start_record, update_self.
    rewrite (@log_each_accepted ctx rid Hrid) by exact Hall.
    cbn [self logger].
    rewrite (@logged_record_columns ctx rid e entries
               (set_is_first_column true (self w)) Hall Hnd).
    - unfold w1, m1, record. destruct w as [[] ?]. reflexivity.
    - destruct w as [[] ?]. exact Hfr.
    - destruct w as [[] ?]. reflexivity.
    - destruct w as [[] ?]. exact Hcols. }
  assert (Hpop : pop_columns (_columns (self w1))
                 = (Ok record, empty_queues (keys record))).
  { unfold w1, m1. cbn [self]. unfold set_columns. cbn [_columns].
    apply pop_singletons. }
  assert (Hkeys : empty_queues (keys record) = _columns (self w)).
  { rewrite Hcols. unfold record, entry_record, keys. cbn [map fst].
    now rewrite map_map. }
  assert (Hready : ready (model_version (self w)) (model_tags (self w))
                         fields mapping w1 rows0).
  { unfold ready, w1, m1. destruct w as [[] ?]. cbn in *. repeat split; assumption. }
  assert (Huniform : Forall (fun kq => List.length (snd kq) = 1)
                            (_columns (self w1))).
  { unfold w1, m1. cbn [self]. unfold set_columns. cbn [_columns].
    apply Forall_map. apply Forall_forall. intros kv _. reflexivity. }
  assert (Hne : _columns (self w1) <> []).
  { unfold w1, m1, record, entry_record. cbn [self]. unfold set_columns.
    cbn [_columns map]. discriminate. }
  destruct (@export_loop_drains mid mty env (model_version (self w))
              (model_tags (self w)) fields mapping Hrank 1
              (S (buffered (_columns (self w1)))) w1 rows0 [row])
    as (w' & Hloop & Hclient' & Hcols' & Hlog' & _).
  - assert (0 < buffered (_columns (self w1))).
    { unfold w1, m1, record, entry_record. cbn [self]. unfold set_columns.
      cbn [_columns map]. rewrite buffered_cons. cbn [List.length]. lia. }
    lia.
  - exact Hready.
  - exact Hne.
  - exact Huniform.
  - cbn [buffered_records]. rewrite Hpop. cbn [res_map]. unfold res_bind.
    now rewrite Hrow.
  - exists w'. split; [ | split; [ exact Hclient' | split ] ].
    + unfold log_record. 
      change (start_record ;;; log_each ctx (e :: entries) ;;; stop_record ctx)
        with (Py.bind start_record
                (fun _ => Py.bind (log_each ctx (e :: entries))
                                  (fun _ => stop_record ctx))).
      assert (Hstop : stop_record ctx w1 = (Ok tt, w')).
      { unfold stop_record, Py.bind, get_self, Py.ret.
        assert (Hfr1 : _is_first_record (self w1) = false).
        { unfold w1, m1. destruct w as [[] ?]. exact Hfr. }
        assert (Hfc1 : _is_first_column (self w1) = false).
        { unfold w1, m1. destruct w as [[] ?]. reflexivity. }
        rewrite Hfr1, Hfc1.
        unfold export_data, Py.bind, get_self, Py.assert, Py.ret.
        rewrite (queue_lengths_uniform Hne Huniform).
        assert (Hmid1 : model_id (self w1) = Some mid)
          by (unfold w1, m1; destruct w as [[] ?]; exact Hmid).
        assert (Hmty1 : model_type (self w1) = Some mty)
          by (unfold w1, m1; destruct w as [[] ?]; exact Hmty).
        assert (Henv1 : environment (self w1) = Some env)
          by (unfold w1, m1; destruct w as [[] ?]; exact Henv).
        rewrite Hmid1, Hmty1, Henv1. cbn [List.length Nat.eqb].
        now rewrite Hloop. }
      unfold Py.bind in Hlogs. unfold Py.bind.
      destruct (start_record w) as [[[] | e0] w0]; [ | discriminate ].
      destruct (log_each ctx (e :: entries) w0) as [[[] | e1] w2];
        [ | discriminate ].
      injection Hlogs as ->. exact Hstop.
    + rewrite Hcols'. rewrite <- Hkeys.
      unfold w1, m1. cbn [self]. unfold set_columns. cbn [_columns].
      unfold drained, empty_queues, keys. now rewrite !map_map.
    + rewrite Hlog'. reflexivity.
Qed.

Lemma later_record_round_trip_witness :
  exists w',
    log_record example_ambient later_entries ready_world = (Ok tt, w')
    /\ _client (self w') = Some ([] ++ [scenario_A_row 7 1700000000 41 "no" "yes"])
    /\ _columns (self w') = _columns (self ready_world)
    /\ logger w' = logger ready_world.
Proof.
  apply (@later_record_round_trip example_ambient 7%Z
           (mkLogEntry (PyInt 41) "age" "feature" "numerical")
           [mkLogEntry (PyStr "no") "pred_label" "prediction" "categorical";
            mkLogEntry (PyStr "yes") "label" "target" "categorical"]
           ready_world "bento" SCORE_CATEGORICAL PRODUCTION
           scenario_A_fields CLASSIFICATION []
           (scenario_A_row 7 1700000000 41 "no" "yes")).
  - reflexivity.
  - repeat constructor.
  - repeat constructor; cbn; intros H;
      repeat (destruct H as [H | H]; [ discriminate H | ]); exact H.
  - reflexivity.
  - reflexivity.
  - reflexivity.
  - discriminate.
  - reflexivity.
  - reflexivity.
  - reflexivity.
  - reflexivity.
  - reflexivity.
Defined.
